(** * Price-monitoring API: a shallow embedding of
      [examples/08_部署到雲端/render_範例_價格監控API.py]

    The Flask handlers of the price API are embedded as computations in a
    small state-and-exception monad whose state is the module-level
    dictionary [price_data].  Python strings are sequences of Unicode code
    points, dictionaries are insertion-ordered association lists, and the
    argument of [jsonify] is kept as a JSON value next to the HTTP status. *)

From Stdlib Require Import List ZArith NArith String Ascii Bool Lia Sorted
  Permutation.
Import ListNotations.
Local Open Scope Z_scope.

(** ** Python strings *)

Module PyStr.

(** A [str] is its sequence of code points. *)
Definition str : Type := list N.

(** An ASCII literal, one code point per character. *)
Definition u (s : string) : str :=
  map N_of_ascii (list_ascii_of_string s).
Arguments u s%_string.

Fixpoint str_eqb (a b : str) : bool :=
  match a, b with
  | [], [] => true
  | x :: a', y :: b' => (x =? y)%N && str_eqb a' b'
  | _, _ => false
  end.

(** [str.isspace] on one code point: the ASCII table of CPython
    ([_Py_ascii_whitespace]) and [_PyUnicode_IsWhitespace] above it. *)
Definition isspace (c : N) : bool :=
  ((0x09 <=? c) && (c <=? 0x0D) || (0x1C <=? c) && (c <=? 0x20)
   || (c =? 0x85) || (c =? 0xA0) || (c =? 0x1680)
   || (0x2000 <=? c) && (c <=? 0x200A)
   || (c =? 0x2028) || (c =? 0x2029) || (c =? 0x202F) || (c =? 0x205F)
   || (c =? 0x3000))%N.

Fixpoint lstrip (s : str) : str :=
  match s with
  | [] => []
  | c :: s' => if isspace c then lstrip s' else s
  end.

Definition rstrip (s : str) : str := rev (lstrip (rev s)).

(** [s.strip()] *)
Definition strip (s : str) : str := rstrip (lstrip s).

(** [s.split(sep)] for a one-character separator: one more field than there
    are separators, so never the empty list. *)
Fixpoint split (sep : N) (s : str) : list str :=
  match s with
  | [] => [[]]
  | c :: s' =>
      if (c =? sep)%N then [] :: split sep s'
      else match split sep s' with
           | w :: ws => (c :: w) :: ws
           | [] => [[c]]
           end
  end.

End PyStr.
Export PyStr.

(** ** Insertion-ordered dictionaries with string keys *)

Module PyDict.
Section Dict.
Context {V : Type}.

(** Items in insertion order; a dictionary never holds a key twice. *)
Definition dict : Type := list (str * V).

(** [d.get(k)] *)
Fixpoint dict_get (d : dict) (k : str) : option V :=
  match d with
  | [] => None
  | (k', v) :: d' => if str_eqb k' k then Some v else dict_get d' k
  end.

(** [k in d] *)
Definition dict_contains (d : dict) (k : str) : bool :=
  match dict_get d k with Some _ => true | None => false end.

(** [d[k] = v]: an existing key keeps its position, a new one goes last. *)
Fixpoint dict_set (d : dict) (k : str) (v : V) : dict :=
  match d with
  | [] => [(k, v)]
  | (k', v') :: d' =>
      if str_eqb k' k then (k', v) :: d' else (k', v') :: dict_set d' k v
  end.

(** [list(d.keys())] *)
Definition dict_keys (d : dict) : list str := map fst d.

(** [d.items()] *)
Definition dict_items (d : dict) : list (str * V) := d.

(** [not d] *)
Definition dict_is_empty (d : dict) : bool :=
  match d with [] => true | _ :: _ => false end.

(** A dictionary display [{k1: v1, k2: v2, ...}]: the items are stored
    left to right. *)
Definition dict_of_items (items : list (str * V)) : dict :=
  fold_left (fun d kv => dict_set d (fst kv) (snd kv)) items [].

End Dict.
Arguments dict V : clear implicits.
End PyDict.
Export PyDict.

(** ** JSON payloads *)

#[local] Set Warnings "-register-all".

Inductive json : Type :=
| JNull
| JBool (b : bool)
| JInt (z : Z)
| JStr (s : str)
| JList (l : list json)
| JObj (o : list (str * json)).

(** The member [k] of a JSON object. *)
Definition json_field (k : str) (j : json) : option json :=
  match j with
  | JObj o => dict_get o k
  | _ => None
  end.

(** What a handler returns: the argument of [jsonify] and the status code
    ([jsonify(x)] alone is status 200). *)
Definition response : Type := (json * Z)%type.

(** ** The catalog *)

Record HistoryEntry : Type := mkHistoryEntry {
  date : str;
  price : Z
}.

Record ProductRecord : Type := mkProductRecord {
  current_price : Z;
  last_update : str;
  history : list HistoryEntry
}.

Definition catalog : Type := dict ProductRecord.

Definition history_json (h : list HistoryEntry) : json :=
  JList (map (fun e => JObj [(u "date", JStr (date e));
                             (u "price", JInt (price e))]) h).

Definition record_json (r : ProductRecord) : json :=
  JObj [(u "current_price", JInt (current_price r));
        (u "last_update", JStr (last_update r));
        (u "history", history_json (history r))].

Definition catalog_json (pd : catalog) : json :=
  JObj (map (fun kv => (fst kv, record_json (snd kv))) pd).

Definition prices_json (result : dict Z) : json :=
  JObj (map (fun kv => (fst kv, JInt (snd kv))) result).

(** ** Exceptions and the handler monad *)

Inductive exn : Type :=
| KeyError (key : str)
| ValueError.

(** A computation reads and may write the global [price_data], and either
    raises or returns. *)
Definition M (A : Type) : Type := catalog -> (exn + A) * catalog.

Definition ret {A} (a : A) : M A := fun pd => (inr a, pd).

Definition bind {A B} (c : M A) (k : A -> M B) : M B :=
  fun pd =>
    match c pd with
    | (inl e, pd') => (inl e, pd')
    | (inr a, pd') => k a pd'
    end.

Definition raise {A} (e : exn) : M A := fun pd => (inl e, pd).

(** Evaluating the global name [price_data]. *)
Definition global_price_data : M catalog := fun pd => (inr pd, pd).

(** Storing into the global [price_data]; no handler of the module does. *)
Definition set_global_price_data (pd' : catalog) : M unit :=
  fun _ => (inr tt, pd').

(** [try: body except Exception as e: handler] *)
Definition try_except {A} (body : M A) (handler : exn -> M A) : M A :=
  fun pd =>
    match body pd with
    | (inl e, pd') => handler e pd'
    | (inr a, pd') => (inr a, pd')
    end.

Definition lift {A} (r : exn + A) : M A := fun pd => (r, pd).

Declare Scope py_scope.
Delimit Scope py_scope with py.
Notation "x <- c ;; k" := (bind c (fun x => k))
  (at level 100, c at next level, right associativity) : py_scope.
Local Open Scope py_scope.

(** [d[k]] *)
Definition subscript {V} (d : dict V) (k : str) : exn + V :=
  match dict_get d k with
  | Some v => inr v
  | None => inl (KeyError k)
  end.

(** [for x in xs: body], threading the local variables [s]. *)
Fixpoint for_in {A S} (xs : list A) (body : A -> S -> M S) (s : S) : M S :=
  match xs with
  | [] => ret s
  | x :: xs' => s' <- body x s ;; for_in xs' body s'
  end.

(** ** Built-in [min] and [max] with a key *)

(** The scan of [min]/[max]: the running best is replaced only when the new
    key compares strictly [better]. *)
Fixpoint extremum {A} (better : Z -> Z -> bool) (key : A -> Z)
    (best : A) (l : list A) : A :=
  match l with
  | [] => best
  | x :: l' =>
      extremum better key (if better (key x) (key best) then x else best) l'
  end.

Definition py_min {A} (l : list A) (key : A -> Z) : exn + A :=
  match l with
  | [] => inl ValueError
  | x :: l' => inr (extremum Z.ltb key x l')
  end.

Definition py_max {A} (l : list A) (key : A -> Z) : exn + A :=
  match l with
  | [] => inl ValueError
  | x :: l' => inr (extremum Z.gtb key x l')
  end.

(** ** String constants of the module *)

Definition product_A : str := [0x7522; 0x54C1; 0x41]%N.
Definition product_B : str := [0x7522; 0x54C1; 0x42]%N.
Definition product_C : str := [0x7522; 0x54C1; 0x43]%N.

(** ["找不到產品："] *)
Definition msg_not_found : str :=
  [0x627E; 0x4E0D; 0x5230; 0x7522; 0x54C1; 0xFF1A]%N.

(** ["請提供有效的產品名稱"] *)
Definition msg_no_valid_input : str :=
  [0x8ACB; 0x63D0; 0x4F9B; 0x6709; 0x6548; 0x7684; 0x7522; 0x54C1; 0x540D;
   0x7A31]%N.

(** ["/api/prices/compare?products=產品A,產品B"] *)
Definition msg_compare_example : str :=
  u "/api/prices/compare?products=" ++ product_A ++ u "," ++ product_B.

(** ** The module *)

Section Service.

(** [str(e)] for a caught exception: the text is the interpreter's. *)
Variable exn_str : exn -> str.

(** The three readings of [datetime.now().isoformat()] taken while the
    module is loaded. *)
Variables loaded_A loaded_B loaded_C : str.

Definition price_data_items : list (str * ProductRecord) :=
  [ (product_A,
     {| current_price := 1200;
        last_update := loaded_A;
        history := [ mkHistoryEntry (u "2024-01-01") 1000;
                     mkHistoryEntry (u "2024-01-15") 1100;
                     mkHistoryEntry (u "2024-02-01") 1200 ] |});
    (product_B,
     {| current_price := 850;
        last_update := loaded_B;
        history := [ mkHistoryEntry (u "2024-01-01") 900;
                     mkHistoryEntry (u "2024-01-15") 875;
                     mkHistoryEntry (u "2024-02-01") 850 ] |});
    (product_C,
     {| current_price := 1500;
        last_update := loaded_C;
        history := [ mkHistoryEntry (u "2024-01-01") 1400;
                     mkHistoryEntry (u "2024-01-15") 1450;
                     mkHistoryEntry (u "2024-02-01") 1500 ] |}) ].

(** The value of [price_data] once the module is loaded. *)
Definition price_data : catalog := dict_of_items price_data_items.

(** The [except Exception as e] clause shared by the handlers. *)
Definition internal_failure (e : exn) : M response :=
  ret (JObj [(u "success", JBool false);
             (u "error", JStr (exn_str e))], 500).

(** [GET /api/prices]; [now] is the clock reading of the call. *)
Definition get_all_prices (now : str) : M response :=
  try_except
    (pd <- global_price_data ;;
     ret (JObj [(u "success", JBool true);
                (u "data", catalog_json pd);
                (u "timestamp", JStr now)], 200))
    internal_failure.

(** [GET /api/prices/<product>] *)
Definition get_product_price (product : str) (now : str) : M response :=
  try_except
    (pd <- global_price_data ;;
     if dict_contains pd product then
       pd <- global_price_data ;;
       r <- lift (subscript pd product) ;;
       ret (JObj [(u "success", JBool true);
                  (u "product", JStr product);
                  (u "data", record_json r);
                  (u "timestamp", JStr now)], 200)
     else
       pd <- global_price_data ;;
       ret (JObj [(u "success", JBool false);
                  (u "error", JStr (msg_not_found ++ product));
                  (u "available_products",
                   JList (map JStr (dict_keys pd)))], 404))
    internal_failure.

(** [GET /api/prices/<product>/history] *)
Definition get_price_history (product : str) (now : str) : M response :=
  try_except
    (pd <- global_price_data ;;
     if dict_contains pd product then
       pd <- global_price_data ;;
       r <- lift (subscript pd product) ;;
       ret (JObj [(u "success", JBool true);
                  (u "product", JStr product);
                  (u "history", history_json (history r));
                  (u "timestamp", JStr now)], 200)
     else
       ret (JObj [(u "success", JBool false);
                  (u "error", JStr (msg_not_found ++ product))], 404))
    internal_failure.

(** The loop of [compare_prices] (lines 146-150): [result] starts empty
    and receives the current price of every stripped name that is a key
    of [price_data]. *)
Definition resolve_many (products : list str) : M (dict Z) :=
  for_in products
    (fun product result =>
       let product := strip product in
       pd <- global_price_data ;;
       if dict_contains pd product then
         pd <- global_price_data ;;
         r <- lift (subscript pd product) ;;
         ret (dict_set result product (current_price r))
       else ret result)
    [].

(** Lines 152-175 of [compare_prices]: the guard on an empty [result] and
    the selection of the two extremes. *)
Definition compare (result : dict Z) (now : str) : M response :=
  if dict_is_empty result then
    ret (JObj [(u "success", JBool false);
               (u "error", JStr msg_no_valid_input);
               (u "example", JStr msg_compare_example)], 400)
  else
    cheapest <- lift (py_min (dict_items result) snd) ;;
    expensive <- lift (py_max (dict_items result) snd) ;;
    ret (JObj [(u "success", JBool true);
               (u "comparison", prices_json result);
               (u "cheapest",
                JObj [(u "product", JStr (fst cheapest));
                      (u "price", JInt (snd cheapest))]);
               (u "most_expensive",
                JObj [(u "product", JStr (fst expensive));
                      (u "price", JInt (snd expensive))]);
               (u "timestamp", JStr now)], 200).

(** [compare_prices] once [products] is bound (from line 146 on). *)
Definition compare_products (products : list str) (now : str) : M response :=
  try_except
    (result <- resolve_many products ;;
     compare result now)
    internal_failure.

(** [GET /api/prices/compare]; [arg] is [request.args.get('products')],
    [None] when the query has no such parameter. *)
Definition compare_prices (arg : option str) (now : str) : M response :=
  let products :=
    split 0x2C (match arg with Some s => s | None => [] end) in
  compare_products products now.

End Service.

(** * Properties *)

(** ** Strings and dictionaries *)

Lemma str_eqb_eq (a b : str) : str_eqb a b = true <-> a = b.
Proof.
  revert b; induction a as [|x a IH]; intros [|y b]; simpl;
    try (split; [discriminate | discriminate]); try tauto.
  rewrite andb_true_iff, N.eqb_eq, IH.
  split; [intros [-> ->]; reflexivity | intros E; inversion E; auto].
Qed.

Lemma str_eqb_refl (a : str) : str_eqb a a = true.
Proof. apply str_eqb_eq; reflexivity. Qed.

Lemma str_eqb_neq (a b : str) : str_eqb a b = false <-> a <> b.
Proof.
  rewrite <- str_eqb_eq. destruct (str_eqb a b); split; congruence.
Qed.

Lemma lstrip_blank (s : str) : forallb isspace s = true -> lstrip s = [].
Proof.
  induction s as [|c s IH]; simpl; [reflexivity|].
  rewrite andb_true_iff; intros [-> H]; auto.
Qed.

Lemma strip_blank (s : str) : forallb isspace s = true -> strip s = [].
Proof.
  intros H. unfold strip, rstrip. rewrite (lstrip_blank s H). reflexivity.
Qed.

Section DictFacts.
Context {V : Type}.
Implicit Types (d : dict V) (k : str) (v : V).

Lemma dict_get_In d k v : dict_get d k = Some v -> In (k, v) d.
Proof.
  induction d as [|[k' v'] d IH]; simpl; [discriminate|].
  destruct (str_eqb k' k) eqn:E.
  - apply str_eqb_eq in E. intros [= ->]. left; congruence.
  - auto.
Qed.

Lemma dict_get_None d k : dict_get d k = None <-> ~ In k (dict_keys d).
Proof.
  induction d as [|[k' v'] d IH]; simpl; [tauto|].
  destruct (str_eqb k' k) eqn:E.
  - apply str_eqb_eq in E. split; [discriminate | tauto].
  - apply str_eqb_neq in E. rewrite IH. tauto.
Qed.

Lemma dict_contains_keys d k :
  dict_contains d k = true <-> In k (dict_keys d).
Proof.
  unfold dict_contains. destruct (dict_get d k) eqn:E.
  - split; [intros _ | reflexivity].
    apply dict_get_In in E. apply (in_map fst) in E. exact E.
  - apply dict_get_None in E. split; [discriminate | tauto].
Qed.

Lemma dict_contains_get d k :
  dict_contains d k = true <-> exists v, dict_get d k = Some v.
Proof.
  unfold dict_contains. destruct (dict_get d k).
  - split; eauto.
  - split; [discriminate | intros [? ?]; discriminate].
Qed.

Lemma dict_get_unique d k v :
  NoDup (dict_keys d) -> In (k, v) d -> dict_get d k = Some v.
Proof.
  induction d as [|[k' v'] d IH]; simpl; [tauto|].
  intros ND [E | H].
  - inversion E; subst. rewrite str_eqb_refl. reflexivity.
  - inversion ND as [|? ? Hk ND']; subst.
    destruct (str_eqb k' k) eqn:E; [|auto].
    apply str_eqb_eq in E; subst. exfalso; apply Hk.
    apply (in_map fst) in H. exact H.
Qed.

Lemma dict_get_set d k v k' :
  dict_get (dict_set d k v) k' =
  if str_eqb k k' then Some v else dict_get d k'.
Proof.
  induction d as [|[k0 v0] d IH]; simpl; [reflexivity|].
  destruct (str_eqb k0 k) eqn:E; simpl.
  - apply str_eqb_eq in E; subst. destruct (str_eqb k k'); reflexivity.
  - rewrite IH. destruct (str_eqb k0 k') eqn:E'; [|reflexivity].
    apply str_eqb_eq in E'; subst k'.
    destruct (str_eqb k k0) eqn:E2; [|reflexivity].
    apply str_eqb_eq in E2; subst k0. rewrite str_eqb_refl in E.
    discriminate.
Qed.

Lemma dict_keys_set d k v :
  dict_keys (dict_set d k v) =
  if dict_contains d k then dict_keys d else dict_keys d ++ [k].
Proof.
  unfold dict_contains.
  induction d as [|[k0 v0] d IH]; simpl; [reflexivity|].
  destruct (str_eqb k0 k) eqn:E; simpl; [reflexivity|].
  rewrite IH. destruct (dict_get d k); reflexivity.
Qed.

Lemma dict_set_NoDup d k v :
  NoDup (dict_keys d) -> NoDup (dict_keys (dict_set d k v)).
Proof.
  intros ND. rewrite dict_keys_set.
  destruct (dict_contains d k) eqn:E; [exact ND|].
  apply NoDup_app; [exact ND | repeat constructor; simpl; tauto |].
  intros x Hx [<- | []].
  apply dict_contains_keys in Hx. congruence.
Qed.

Lemma dict_of_items_snoc (items : list (str * V)) k v :
  dict_of_items (items ++ [(k, v)]) = dict_set (dict_of_items items) k v.
Proof. unfold dict_of_items. rewrite fold_left_app. reflexivity. Qed.

(** A display with pairwise distinct keys stores them in the order
    written. *)
Lemma dict_of_items_keys (items : list (str * V)) :
  NoDup (map fst items) -> dict_keys (dict_of_items items) = map fst items.
Proof.
  induction items as [|[k v] items IH] using rev_ind; [reflexivity|].
  rewrite map_app; simpl. intros ND.
  apply NoDup_remove in ND. rewrite app_nil_r in ND. destruct ND as [ND Hk].
  rewrite dict_of_items_snoc, dict_keys_set.
  destruct (dict_contains (dict_of_items items) k) eqn:E.
  - apply dict_contains_keys in E. rewrite IH in E by exact ND. tauto.
  - rewrite IH by exact ND. reflexivity.
Qed.

End DictFacts.

Lemma str_eqb_sym (a b : str) : str_eqb a b = str_eqb b a.
Proof.
  destruct (str_eqb a b) eqn:E, (str_eqb b a) eqn:E'; try reflexivity.
  - apply str_eqb_eq in E. apply str_eqb_neq in E'. congruence.
  - apply str_eqb_eq in E'. apply str_eqb_neq in E. congruence.
Qed.

Lemma existsb_str_eqb (n : str) (l : list str) :
  existsb (str_eqb n) l = true <-> In n l.
Proof.
  rewrite existsb_exists. split.
  - intros [x [Hx E]]. apply str_eqb_eq in E. congruence.
  - intros H. exists n. split; [exact H | apply str_eqb_refl].
Qed.

(** ** Computations that only read the catalog *)

Definition readonly {A} (c : M A) : Prop := forall pd, snd (c pd) = pd.

Lemma readonly_ret {A} (a : A) : readonly (ret a).
Proof. intros pd; reflexivity. Qed.

Lemma readonly_raise {A} (e : exn) : readonly (@raise A e).
Proof. intros pd; reflexivity. Qed.

Lemma readonly_lift {A} (r : exn + A) : readonly (lift r).
Proof. intros pd; reflexivity. Qed.

Lemma readonly_global : readonly global_price_data.
Proof. intros pd; reflexivity. Qed.

(** A store is not read-only: the predicate tells the two apart. *)
Lemma set_global_not_readonly (r : ProductRecord) :
  ~ readonly (set_global_price_data [(product_A, r)]).
Proof. intros H. specialize (H []). discriminate H. Qed.

Lemma readonly_bind {A B} (c : M A) (k : A -> M B) :
  readonly c -> (forall a, readonly (k a)) -> readonly (bind c k).
Proof.
  intros Hc Hk pd. unfold bind. specialize (Hc pd).
  destruct (c pd) as [[e | a] pd']; simpl in *; subst; [reflexivity|].
  apply Hk.
Qed.

Lemma readonly_try_except {A} (body : M A) (handler : exn -> M A) :
  readonly body -> (forall e, readonly (handler e)) ->
  readonly (try_except body handler).
Proof.
  intros Hb Hh pd. unfold try_except. specialize (Hb pd).
  destruct (body pd) as [[e | a] pd']; simpl in *; subst; [|reflexivity].
  apply Hh.
Qed.

Lemma readonly_for_in {A S} (xs : list A) (body : A -> S -> M S) :
  (forall x s, readonly (body x s)) -> forall s, readonly (for_in xs body s).
Proof.
  intros Hb. induction xs as [|x xs IH]; intros s; simpl.
  - apply readonly_ret.
  - apply readonly_bind; [apply Hb | exact IH].
Qed.

Lemma readonly_if {A} (b : bool) (c1 c2 : M A) :
  readonly c1 -> readonly c2 -> readonly (if b then c1 else c2).
Proof. destruct b; auto. Qed.

Create HintDb readonly.
#[export] Hint Resolve readonly_ret readonly_raise readonly_lift
  readonly_global readonly_bind readonly_try_except readonly_for_in
  readonly_if : readonly.

(** ** The name-resolution loop *)

(** One iteration of the loop of [resolve_many] against a catalog that does
    not change under it. *)
Definition resolve_step (pd : catalog) (result : dict Z) (product : str)
    : dict Z :=
  match dict_get pd (strip product) with
  | Some r => dict_set result (strip product) (current_price r)
  | None => result
  end.

Lemma resolve_many_run (pd : catalog) (products : list str) :
  resolve_many products pd = (inr (fold_left (resolve_step pd) products []), pd).
Proof.
  unfold resolve_many. generalize (@nil (str * Z)).
  induction products as [|p products IH]; intros acc; [reflexivity|].
  cbn [for_in fold_left]. unfold bind at 1.
  replace (bind global_price_data _ pd) with
    (inr (A := exn) (resolve_step pd acc p), pd).
  - apply IH.
  - unfold bind, global_price_data, lift, subscript, dict_contains, ret,
      resolve_step.
    cbv beta iota zeta.
    destruct (dict_get pd (strip p)) eqn:E; cbv beta; rewrite ?E; reflexivity.
Qed.

Lemma resolved_NoDup (pd : catalog) (products : list str) (acc : dict Z) :
  NoDup (dict_keys acc) ->
  NoDup (dict_keys (fold_left (resolve_step pd) products acc)).
Proof.
  revert acc. induction products as [|p products IH]; intros acc ND; simpl;
    [exact ND|].
  apply IH. unfold resolve_step.
  destruct (dict_get pd (strip p)); [apply dict_set_NoDup|]; exact ND.
Qed.

Lemma resolved_get (pd : catalog) (products : list str) (n : str) :
  dict_get (fold_left (resolve_step pd) products []) n =
  if existsb (str_eqb n) (map strip products)
  then option_map current_price (dict_get pd n)
  else None.
Proof.
  induction products as [|p products IH] using rev_ind; [reflexivity|].
  rewrite fold_left_app, map_app, existsb_app. simpl. rewrite orb_false_r.
  unfold resolve_step at 1.
  destruct (dict_get pd (strip p)) as [r|] eqn:Hp.
  - rewrite dict_get_set, (str_eqb_sym n).
    destruct (str_eqb (strip p) n) eqn:E.
    + apply str_eqb_eq in E; subst n. rewrite orb_true_r, Hp. reflexivity.
    + rewrite orb_false_r. exact IH.
  - rewrite IH. destruct (str_eqb n (strip p)) eqn:E.
    + apply str_eqb_eq in E; subst n. rewrite orb_true_r, Hp.
      destruct (existsb _ _); reflexivity.
    + rewrite orb_false_r. reflexivity.
Qed.

(** [C3] For every sequence of names, the loop of [compare_prices] returns
    (it raises nothing and leaves the catalog alone) a dictionary without
    repeated keys whose keys are exactly the stripped names that are keys of
    the catalog, each mapped to the [current_price] of its record; names
    that are not in the catalog leave no trace. *)
Theorem resolve_many_spec (pd : catalog) (names : list str) :
  exists result : dict Z,
    resolve_many names pd = (inr result, pd)
    /\ NoDup (dict_keys result)
    /\ (forall n, In n (dict_keys result) <->
                  In n (map strip names) /\ dict_contains pd n = true)
    /\ (forall n p, dict_get result n = Some p <->
                    In n (map strip names)
                    /\ exists r, dict_get pd n = Some r /\ current_price r = p).
Proof.
  exists (fold_left (resolve_step pd) names []).
  split; [apply resolve_many_run|].
  split; [apply resolved_NoDup; constructor|].
  assert (G : forall n p,
             dict_get (fold_left (resolve_step pd) names []) n = Some p <->
             In n (map strip names)
             /\ exists r, dict_get pd n = Some r /\ current_price r = p).
  { intros n p. rewrite resolved_get.
    destruct (existsb (str_eqb n) (map strip names)) eqn:E.
    - apply existsb_str_eqb in E. destruct (dict_get pd n) as [r|]; simpl.
      + split.
        * intros [= <-]. eauto.
        * intros [_ [r' [[= <-] <-]]]. reflexivity.
      + split; [discriminate | intros [_ [r' [? _]]]; discriminate].
    - split; [discriminate|]. intros [H _].
      apply existsb_str_eqb in H. congruence. }
  split; [|exact G].
  intros n. rewrite <- dict_contains_keys, !dict_contains_get. split.
  - intros [p Hp]. apply G in Hp. destruct Hp as [Hn [r [Hr _]]]. eauto.
  - intros [Hn [r Hr]]. exists (current_price r). apply G. eauto.
Qed.

(** ** Extremum selection *)

(** [x] is the first element of [l] whose key is least. *)
Definition first_least {A} (key : A -> Z) (l : list A) (x : A) : Prop :=
  exists before after,
    l = before ++ x :: after
    /\ (forall y, In y before -> key x < key y)
    /\ (forall y, In y after -> key x <= key y).

(** [x] is the first element of [l] whose key is greatest. *)
Definition first_greatest {A} (key : A -> Z) (l : list A) (x : A) : Prop :=
  exists before after,
    l = before ++ x :: after
    /\ (forall y, In y before -> key y < key x)
    /\ (forall y, In y after -> key y <= key x).

Section ExtremumFacts.
Context {A : Type}.
Implicit Types (key : A -> Z) (l : list A).

Lemma extremum_ltb_scan key l :
  forall before best seen,
    (forall y, In y before -> key best < key y) ->
    (forall y, In y seen -> key best <= key y) ->
    first_least key (before ++ best :: seen ++ l)
      (extremum Z.ltb key best l).
Proof.
  induction l as [|x l IH]; intros before best seen Hb Hs; simpl.
  - exists before, seen. rewrite app_nil_r. auto.
  - destruct (Z.ltb_spec (key x) (key best)) as [Hlt | Hge].
    + specialize (IH (before ++ best :: seen) x []).
      rewrite <- app_assoc in IH. simpl in IH. apply IH.
      * intros y Hy. apply in_app_or in Hy.
        destruct Hy as [Hy | [<- | Hy]];
          [specialize (Hb y Hy) | | specialize (Hs y Hy)]; lia.
      * intros y [].
    + specialize (IH before best (seen ++ [x])).
      rewrite <- app_assoc in IH. simpl in IH. apply IH; [exact Hb|].
      intros y Hy. apply in_app_or in Hy.
      destruct Hy as [Hy | [<- | []]]; [apply Hs; exact Hy | lia].
Qed.

Lemma extremum_gtb_ltb key best l :
  extremum Z.gtb key best l = extremum Z.ltb (fun a => - key a) best l.
Proof.
  revert best. induction l as [|x l IH]; intros best; simpl; [reflexivity|].
  rewrite IH, Z.gtb_ltb.
  destruct (Z.ltb_spec (key best) (key x)),
           (Z.ltb_spec (- key x) (- key best));
    try reflexivity; lia.
Qed.

Lemma first_least_neg key l x :
  first_least (fun a => - key a) l x -> first_greatest key l x.
Proof.
  intros [before [after [E [Hb Ha]]]]. exists before, after.
  split; [exact E|].
  split; intros y Hy; [specialize (Hb y Hy) | specialize (Ha y Hy)]; lia.
Qed.

Lemma py_min_first key x l :
  first_least key (x :: l) (extremum Z.ltb key x l).
Proof.
  apply (extremum_ltb_scan key l [] x []); intros y [].
Qed.

Lemma py_max_first key x l :
  first_greatest key (x :: l) (extremum Z.gtb key x l).
Proof.
  rewrite extremum_gtb_ltb. apply first_least_neg.
  apply (extremum_ltb_scan (fun a => - key a) l [] x []); intros y [].
Qed.

Lemma first_least_In key l x : first_least key l x -> In x l.
Proof.
  intros [before [after [-> _]]]. apply in_or_app. right. left. reflexivity.
Qed.

Lemma first_greatest_In key l x : first_greatest key l x -> In x l.
Proof.
  intros [before [after [-> _]]]. apply in_or_app. right. left. reflexivity.
Qed.

Lemma first_least_le key l x :
  first_least key l x -> forall y, In y l -> key x <= key y.
Proof.
  intros [before [after [-> [Hb Ha]]]] y Hy. apply in_app_or in Hy.
  destruct Hy as [Hy | [<- | Hy]];
    [specialize (Hb y Hy) | | specialize (Ha y Hy)]; lia.
Qed.

End ExtremumFacts.

(** [C1] For every non-empty mapping from names to prices, [compare]
    answers with status 200 and reports as cheapest the first item, in the
    insertion order of the mapping, whose price is least, and as most
    expensive the first item whose price is greatest: every item before the
    chosen one is strictly worse and every item after it is no better. *)
Theorem compare_selects_first_extrema
    (result : dict Z) (now : str) (pd : catalog) :
  result <> [] ->
  exists cheapest expensive : str * Z,
    py_min (dict_items result) snd = inr cheapest
    /\ py_max (dict_items result) snd = inr expensive
    /\ first_least snd (dict_items result) cheapest
    /\ first_greatest snd (dict_items result) expensive
    /\ compare result now pd =
       (inr (JObj [(u "success", JBool true);
                   (u "comparison", prices_json result);
                   (u "cheapest",
                    JObj [(u "product", JStr (fst cheapest));
                          (u "price", JInt (snd cheapest))]);
                   (u "most_expensive",
                    JObj [(u "product", JStr (fst expensive));
                          (u "price", JInt (snd expensive))]);
                   (u "timestamp", JStr now)], 200), pd).
Proof.
  destruct result as [|x l]; [congruence | intros _].
  exists (extremum Z.ltb snd x l), (extremum Z.gtb snd x l).
  split; [reflexivity|]. split; [reflexivity|].
  split; [apply py_min_first|]. split; [apply py_max_first|].
  reflexivity.
Qed.

(** ** The comparison endpoint *)

Lemma json_field_prices (result : dict Z) (n : str) :
  json_field n (prices_json result) = option_map JInt (dict_get result n).
Proof.
  unfold prices_json, json_field.
  induction result as [|[k v] result IH]; simpl; [reflexivity|].
  destruct (str_eqb k n); [reflexivity | exact IH].
Qed.

Lemma compare_products_run
    (exn_str : exn -> str) (pd : catalog) (products : list str) (now : str) :
  compare_products exn_str products now pd =
  compare (fold_left (resolve_step pd) products []) now pd.
Proof.
  unfold compare_products, try_except, bind. rewrite resolve_many_run.
  set (result := fold_left (resolve_step pd) products []).
  destruct result as [|x l]; reflexivity.
Qed.

Lemma resolved_none (pd : catalog) (names : list str) (acc : dict Z) :
  (forall n, In n names -> dict_contains pd (strip n) = false) ->
  fold_left (resolve_step pd) names acc = acc.
Proof.
  revert acc. induction names as [|n names IH]; intros acc H; simpl;
    [reflexivity|].
  assert (E : resolve_step pd acc n = acc).
  { unfold resolve_step. specialize (H n (or_introl eq_refl)).
    unfold dict_contains in H. destruct (dict_get pd (strip n));
      [discriminate | reflexivity]. }
  rewrite E. apply IH. intros m Hm. apply H. right. exact Hm.
Qed.

(** [C2] When the sequence of names is empty, or no stripped name is a key
    of the catalog, or the names are all blank and the catalog has no
    product with the empty name, the comparison answers with status 400 and
    the usage hint, not with a comparison; the catalog is left as it was. *)
Theorem compare_no_valid_input
    (exn_str : exn -> str) (pd : catalog) (names : list str) (now : str) :
  names = []
  \/ (forall n, In n names -> dict_contains pd (strip n) = false)
  \/ (dict_contains pd [] = false
      /\ forall n, In n names -> forallb isspace n = true) ->
  compare_products exn_str names now pd =
  (inr (JObj [(u "success", JBool false);
              (u "error", JStr msg_no_valid_input);
              (u "example", JStr msg_compare_example)], 400), pd).
Proof.
  intros H. rewrite compare_products_run.
  rewrite resolved_none; [reflexivity|].
  destruct H as [-> | [H | [He Hb]]].
  - intros n [].
  - exact H.
  - intros n Hn. rewrite (strip_blank n (Hb n Hn)). exact He.
Qed.

(** [C10] Whenever the comparison endpoint answers with status 200, the
    names it reports as cheapest and most expensive are members of the
    reported per-name mapping, each with exactly the price reported next to
    it, and the cheapest price is at most the most expensive one. *)
Theorem compare_prices_success
    (exn_str : exn -> str) (pd : catalog) (arg : option str) (now : str)
    (body : json) :
  fst (compare_prices exn_str arg now pd) = inr (body, 200) ->
  exists (comparison : json) (n1 : str) (p1 : Z) (n2 : str) (p2 : Z),
    body = JObj [(u "success", JBool true);
                 (u "comparison", comparison);
                 (u "cheapest",
                  JObj [(u "product", JStr n1); (u "price", JInt p1)]);
                 (u "most_expensive",
                  JObj [(u "product", JStr n2); (u "price", JInt p2)]);
                 (u "timestamp", JStr now)]
    /\ json_field n1 comparison = Some (JInt p1)
    /\ json_field n2 comparison = Some (JInt p2)
    /\ p1 <= p2.
Proof.
  unfold compare_prices. rewrite compare_products_run.
  set (products := split _ _).
  assert (ND := resolved_NoDup pd products [] (NoDup_nil _)).
  set (result := fold_left (resolve_step pd) products []) in *.
  destruct result as [|x l] eqn:E; [discriminate|].
  intros H. simpl in H. injection H as <-.
  set (lo := extremum Z.ltb snd x l). set (hi := extremum Z.gtb snd x l).
  assert (Hlo : first_least snd result lo) by (rewrite E; apply py_min_first).
  assert (Hhi : first_greatest snd result hi)
    by (rewrite E; apply py_max_first).
  rewrite <- E in *.
  exists (prices_json result), (fst lo), (snd lo), (fst hi), (snd hi).
  split; [reflexivity|].
  assert (Ilo := first_least_In _ _ _ Hlo).
  assert (Ihi := first_greatest_In _ _ _ Hhi).
  rewrite !json_field_prices.
  rewrite (dict_get_unique result (fst lo) (snd lo) ND)
    by (destruct lo; exact Ilo).
  rewrite (dict_get_unique result (fst hi) (snd hi) ND)
    by (destruct hi; exact Ihi).
  split; [reflexivity|]. split; [reflexivity|].
  apply (first_least_le _ _ _ Hlo). exact Ihi.
Qed.

(** ** Single-product lookups *)

Lemma get_product_price_found
    (exn_str : exn -> str) (pd : catalog) (product now : str)
    (r : ProductRecord) :
  dict_get pd product = Some r ->
  get_product_price exn_str product now pd =
  (inr (JObj [(u "success", JBool true);
              (u "product", JStr product);
              (u "data", record_json r);
              (u "timestamp", JStr now)], 200), pd).
Proof.
  intros H.
  unfold get_product_price, try_except, bind, global_price_data, lift,
    subscript, dict_contains.
  cbv beta iota. rewrite H. cbv beta iota. rewrite H. reflexivity.
Qed.

Lemma get_price_history_found
    (exn_str : exn -> str) (pd : catalog) (product now : str)
    (r : ProductRecord) :
  dict_get pd product = Some r ->
  get_price_history exn_str product now pd =
  (inr (JObj [(u "success", JBool true);
              (u "product", JStr product);
              (u "history", history_json (history r));
              (u "timestamp", JStr now)], 200), pd).
Proof.
  intros H.
  unfold get_price_history, try_except, bind, global_price_data, lift,
    subscript, dict_contains.
  cbv beta iota. rewrite H. cbv beta iota. rewrite H. reflexivity.
Qed.

Lemma get_product_price_absent
    (exn_str : exn -> str) (pd : catalog) (product now : str) :
  dict_contains pd product = false ->
  get_product_price exn_str product now pd =
  (inr (JObj [(u "success", JBool false);
              (u "error", JStr (msg_not_found ++ product));
              (u "available_products",
               JList (map JStr (dict_keys pd)))], 404), pd).
Proof.
  intros H. unfold get_product_price, try_except, bind, global_price_data.
  cbv beta iota. rewrite H. reflexivity.
Qed.

Lemma get_price_history_absent
    (exn_str : exn -> str) (pd : catalog) (product now : str) :
  dict_contains pd product = false ->
  get_price_history exn_str product now pd =
  (inr (JObj [(u "success", JBool false);
              (u "error", JStr (msg_not_found ++ product))], 404), pd).
Proof.
  intros H. unfold get_price_history, try_except, bind, global_price_data.
  cbv beta iota. rewrite H. reflexivity.
Qed.

(** Some member of the payload is the list of the catalog's names. *)
Definition lists_available_names (pd : catalog) (body : json) : Prop :=
  exists k, json_field k body = Some (JList (map JStr (dict_keys pd))).

(** [C4] For every name that is not a key of the catalog, the price lookup
    answers with status 404, and the alternatives it reports are the keys
    of the catalog, all of them and nothing else, in catalog order. *)
Theorem get_product_price_not_found
    (exn_str : exn -> str) (pd : catalog) (product now : str) :
  dict_contains pd product = false ->
  exists body,
    get_product_price exn_str product now pd = (inr (body, 404), pd)
    /\ json_field (u "success") body = Some (JBool false)
    /\ json_field (u "available_products") body =
       Some (JList (map JStr (dict_keys pd))).
Proof.
  intros H. eexists. split; [apply get_product_price_absent; exact H|].
  split; reflexivity.
Qed.

(** [C5, as amended] For every name that is not a key of the catalog, both
    single-product lookups answer with status 404; the price lookup lists
    the catalog's names in its answer, while the history lookup answers
    with the failure flag and the error message only. *)
Theorem lookups_not_found
    (exn_str : exn -> str) (pd : catalog) (product now : str) :
  dict_contains pd product = false ->
  (exists body,
      get_product_price exn_str product now pd = (inr (body, 404), pd)
      /\ lists_available_names pd body)
  /\ get_price_history exn_str product now pd =
     (inr (JObj [(u "success", JBool false);
                 (u "error", JStr (msg_not_found ++ product))], 404), pd).
Proof.
  intros H. split.
  - eexists. split; [apply get_product_price_absent; exact H|].
    exists (u "available_products"). reflexivity.
  - apply get_price_history_absent. exact H.
Qed.

(** ** Calendar dates *)

Definition digit (c : N) : option N :=
  if ((0x30 <=? c) && (c <=? 0x39))%N then Some (c - 0x30)%N else None.

(** The number written by a string of decimal digits, after [acc]. *)
Fixpoint number (acc : N) (s : str) : option N :=
  match s with
  | [] => Some acc
  | c :: s' =>
      match digit c with
      | Some d => number (10 * acc + d)%N s'
      | None => None
      end
  end.

(** The (year, month, day) written as [YYYY-MM-DD]. *)
Definition parse_date (s : str) : option (N * N * N) :=
  match s with
  | [y1; y2; y3; y4; h1; m1; m2; h2; d1; d2] =>
      match number 0 [y1; y2; y3; y4], number 0 [m1; m2], number 0 [d1; d2]
      with
      | Some y, Some m, Some d =>
          if ((h1 =? 0x2D) && (h2 =? 0x2D) && (1 <=? m) && (m <=? 12)
              && (1 <=? d) && (d <=? 31))%N
          then Some (y, m, d) else None
      | _, _, _ => None
      end
  | _ => None
  end.

(** [a] and [b] are dates and [a] is not after [b]. *)
Definition date_le (a b : str) : Prop :=
  match parse_date a, parse_date b with
  | Some (y, m, d), Some (y', m', d') =>
      (y < y' \/ y = y' /\ (m < m' \/ m = m' /\ d <= d'))%N
  | _, _ => False
  end.

Definition dates_nondecreasing (h : list HistoryEntry) : Prop :=
  StronglySorted (fun e e' => date_le (date e) (date e')) h.

(** [C6] For every name that is a key of the loaded catalog, the price
    lookup answers with status 200 and a record whose history is not empty
    and whose entries carry calendar dates in non-decreasing order. *)
Theorem get_product_price_history_ordered
    (exn_str : exn -> str) (loaded_A loaded_B loaded_C : str)
    (product now : str) :
  In product (dict_keys (price_data loaded_A loaded_B loaded_C)) ->
  exists r : ProductRecord,
    get_product_price exn_str product now
      (price_data loaded_A loaded_B loaded_C) =
    (inr (JObj [(u "success", JBool true);
                (u "product", JStr product);
                (u "data", record_json r);
                (u "timestamp", JStr now)], 200),
     price_data loaded_A loaded_B loaded_C)
    /\ history r <> []
    /\ dates_nondecreasing (history r).
Proof.
  intros H. apply dict_contains_keys, dict_contains_get in H.
  destruct H as [r Hr]. exists r.
  split; [apply get_product_price_found; exact Hr|].
  apply dict_get_In in Hr.
  assert (Hh : history r <> [] /\ dates_nondecreasing (history r));
    [|exact Hh].
  destruct Hr as [E | [E | [E | []]]]; inversion E; subst; simpl;
    (split; [discriminate|]);
    repeat constructor; unfold date_le; simpl; lia.
Qed.

(** ** Reading the whole catalog *)

Lemma get_all_prices_run (exn_str : exn -> str) (pd : catalog) (now : str) :
  get_all_prices exn_str now pd =
  (inr (JObj [(u "success", JBool true);
              (u "data", catalog_json pd);
              (u "timestamp", JStr now)], 200), pd).
Proof. reflexivity. Qed.

Lemma json_field_catalog (pd : catalog) (n : str) :
  json_field n (catalog_json pd) = option_map record_json (dict_get pd n).
Proof.
  unfold catalog_json, json_field.
  induction pd as [|[k v] pd IH]; simpl; [reflexivity|].
  destruct (str_eqb k n); [reflexivity | exact IH].
Qed.

Lemma price_data_items_NoDup (loaded_A loaded_B loaded_C : str) :
  NoDup (map fst (price_data_items loaded_A loaded_B loaded_C)).
Proof.
  simpl. repeat constructor; simpl; intros H;
    repeat (destruct H as [H | H]; [discriminate H|]); exact H.
Qed.

(** [C7] Reading the whole loaded catalog answers with status 200 and a
    mapping whose keys are the names written in the catalog's
    initialisation, in the order written, as many as the catalog has
    entries, each name mapped to its record. *)
Theorem get_all_prices_names
    (exn_str : exn -> str) (loaded_A loaded_B loaded_C : str) (now : str) :
  exists data : list (str * json),
    get_all_prices exn_str now (price_data loaded_A loaded_B loaded_C) =
    (inr (JObj [(u "success", JBool true);
                (u "data", JObj data);
                (u "timestamp", JStr now)], 200),
     price_data loaded_A loaded_B loaded_C)
    /\ map fst data = map fst (price_data_items loaded_A loaded_B loaded_C)
    /\ map fst data = [product_A; product_B; product_C]
    /\ List.length data =
       List.length (price_data loaded_A loaded_B loaded_C)
    /\ forall n, json_field n (JObj data) =
                 option_map record_json
                   (dict_get (price_data loaded_A loaded_B loaded_C) n).
Proof.
  eexists. split; [apply get_all_prices_run|].
  split.
  - rewrite map_map. simpl map at 1.
    change (dict_keys (price_data loaded_A loaded_B loaded_C) =
            map fst (price_data_items loaded_A loaded_B loaded_C)).
    apply dict_of_items_keys, price_data_items_NoDup.
  - split; [reflexivity|]. split; [apply List.length_map|].
    intros n. apply json_field_catalog.
Qed.

(** The JSON object [j] without its member [k]. *)
Definition json_without (k : str) (j : json) : json :=
  match j with
  | JObj o => JObj (filter (fun kv => negb (str_eqb (fst kv) k)) o)
  | _ => j
  end.

(** [C8] Two successive calls of the whole-catalog read, at any two clock
    readings and with nothing in between, both answer with status 200 and
    return the same mapping, the catalog itself; the two answers differ in
    nothing but the time stamp of the call. *)
Theorem get_all_prices_idempotent
    (exn_str : exn -> str) (pd : catalog) (t1 t2 : str) :
  exists b1 b2 : json,
    (r1 <- get_all_prices exn_str t1 ;;
     r2 <- get_all_prices exn_str t2 ;;
     ret (r1, r2)) pd = (inr ((b1, 200), (b2, 200)), pd)
    /\ json_field (u "data") b1 = Some (catalog_json pd)
    /\ json_field (u "data") b2 = json_field (u "data") b1
    /\ json_without (u "timestamp") b2 = json_without (u "timestamp") b1.
Proof.
  do 2 eexists. split; [reflexivity|].
  split; [reflexivity|]. split; reflexivity.
Qed.

(** ** Frame *)

(** [C9] Every handler of the core, and the resolution loop and the
    comparison inside the comparison handler, ends with the catalog it
    started with, whatever it answers and whether it answers or raises. *)
Theorem handlers_leave_catalog_unchanged
    (exn_str : exn -> str) (product now : str) (arg : option str)
    (products : list str) (result : dict Z) :
  readonly (get_all_prices exn_str now)
  /\ readonly (get_product_price exn_str product now)
  /\ readonly (get_price_history exn_str product now)
  /\ readonly (compare_prices exn_str arg now)
  /\ readonly (resolve_many products)
  /\ readonly (compare result now).
Proof.
  unfold get_all_prices, get_product_price, get_price_history,
    compare_prices, compare_products, resolve_many, compare,
    internal_failure.
  repeat split; auto 30 with readonly.
Qed.

(** The [except] clause of the lookups is never reached: they answer with
    200 or 404. *)
Lemma get_product_price_status
    (exn_str : exn -> str) (pd : catalog) (product now : str) :
  exists body status,
    get_product_price exn_str product now pd = (inr (body, status), pd)
    /\ (status = 200 \/ status = 404).
Proof.
  destruct (dict_get pd product) as [r|] eqn:E.
  - do 2 eexists. split; [apply (get_product_price_found _ _ _ _ r E)|].
    left; reflexivity.
  - do 2 eexists. split; [apply get_product_price_absent|right; reflexivity].
    unfold dict_contains. rewrite E. reflexivity.
Qed.

Lemma get_price_history_status
    (exn_str : exn -> str) (pd : catalog) (product now : str) :
  exists body status,
    get_price_history exn_str product now pd = (inr (body, status), pd)
    /\ (status = 200 \/ status = 404).
Proof.
  destruct (dict_get pd product) as [r|] eqn:E.
  - do 2 eexists. split; [apply (get_price_history_found _ _ _ _ r E)|].
    left; reflexivity.
  - do 2 eexists. split; [apply get_price_history_absent|right; reflexivity].
    unfold dict_contains. rewrite E. reflexivity.
Qed.

(** * Concrete runs *)

(** A rendering of exceptions and a clock reading to run the handlers
    with. *)
Definition sample_exn_str (e : exn) : str :=
  match e with
  | KeyError k => u "'" ++ k ++ u "'"
  | ValueError => u "min() arg is an empty sequence"
  end.

Definition sample_now : str := u "2024-02-01T12:00:00".

Definition sample_price_data : catalog :=
  price_data sample_now sample_now sample_now.

Example strip_example :
  strip (u "  " ++ product_A ++ [0x3000; 0x0A]%N) = product_A.
Proof. reflexivity. Qed.

Example strip_keeps_inner_space : strip (u " a b ") = u "a b".
Proof. reflexivity. Qed.

Example split_example : split 0x2C (u "a,,b") = [u "a"; u ""; u "b"].
Proof. reflexivity. Qed.

Example split_empty : split 0x2C (u "") = [u ""].
Proof. reflexivity. Qed.

(** [resolve_many(["A", "A", "B"])] has exactly two entries. *)
Example resolve_many_duplicates :
  resolve_many [product_A; product_A; product_B] sample_price_data =
  (inr [(product_A, 1200); (product_B, 850)], sample_price_data).
Proof. reflexivity. Qed.

(** A repeated name keeps the place of its first occurrence. *)
Example resolve_many_order :
  resolve_many [u " " ++ product_C; u "nope"; product_A; product_C]
    sample_price_data =
  (inr [(product_C, 1500); (product_A, 1200)], sample_price_data).
Proof. reflexivity. Qed.

(** [compare({"A": 1200, "B": 850, "C": 1500})] *)
Example compare_three :
  py_min [(u "A", 1200); (u "B", 850); (u "C", 1500)] snd = inr (u "B", 850)
  /\ py_max [(u "A", 1200); (u "B", 850); (u "C", 1500)] snd
     = inr (u "C", 1500).
Proof. split; reflexivity. Qed.

(** [compare({"A": 1000, "B": 1000})]: the first of the tied items, for
    both extremes. *)
Example compare_tie :
  py_min [(u "A", 1000); (u "B", 1000)] snd = inr (u "A", 1000)
  /\ py_max [(u "A", 1000); (u "B", 1000)] snd = inr (u "A", 1000).
Proof. split; reflexivity. Qed.

(** A request without the [products] parameter, or with an empty one. *)
Example compare_prices_no_parameter :
  compare_prices sample_exn_str None sample_now sample_price_data =
  (inr (JObj [(u "success", JBool false);
              (u "error", JStr msg_no_valid_input);
              (u "example", JStr msg_compare_example)], 400),
   sample_price_data)
  /\ compare_prices sample_exn_str (Some (u " , ")) sample_now
       sample_price_data =
     compare_prices sample_exn_str None sample_now sample_price_data.
Proof. split; reflexivity. Qed.

Definition sample_query : str := product_A ++ u ", " ++ product_B.

Definition sample_comparison : json :=
  JObj [(u "success", JBool true);
        (u "comparison",
         JObj [(product_A, JInt 1200); (product_B, JInt 850)]);
        (u "cheapest",
         JObj [(u "product", JStr product_B); (u "price", JInt 850)]);
        (u "most_expensive",
         JObj [(u "product", JStr product_A); (u "price", JInt 1200)]);
        (u "timestamp", JStr sample_now)].

Example compare_prices_sample :
  compare_prices sample_exn_str (Some sample_query) sample_now
    sample_price_data = (inr (sample_comparison, 200), sample_price_data).
Proof. reflexivity. Qed.

(** * Instances of the theorems that carry a hypothesis *)

Definition sample_tie : dict Z := [(product_A, 1000); (product_B, 1000)].

Lemma compare_selects_first_extrema_witness :
  sample_tie <> []
  /\ exists cheapest expensive : str * Z,
       py_min (dict_items sample_tie) snd = inr cheapest
       /\ py_max (dict_items sample_tie) snd = inr expensive
       /\ first_least snd (dict_items sample_tie) cheapest
       /\ first_greatest snd (dict_items sample_tie) expensive
       /\ compare sample_tie sample_now sample_price_data =
          (inr (JObj [(u "success", JBool true);
                      (u "comparison", prices_json sample_tie);
                      (u "cheapest",
                       JObj [(u "product", JStr (fst cheapest));
                             (u "price", JInt (snd cheapest))]);
                      (u "most_expensive",
                       JObj [(u "product", JStr (fst expensive));
                             (u "price", JInt (snd expensive))]);
                      (u "timestamp", JStr sample_now)], 200),
           sample_price_data).
Proof.
  split; [discriminate|].
  apply (compare_selects_first_extrema sample_tie sample_now
           sample_price_data).
  discriminate.
Defined.

Definition sample_blank_names : list str := [u " "; u ""].

Lemma compare_no_valid_input_witness :
  (sample_blank_names = []
   \/ (forall n, In n sample_blank_names ->
                 dict_contains sample_price_data (strip n) = false)
   \/ (dict_contains sample_price_data [] = false
       /\ forall n, In n sample_blank_names -> forallb isspace n = true))
  /\ compare_products sample_exn_str sample_blank_names sample_now
       sample_price_data =
     (inr (JObj [(u "success", JBool false);
                 (u "error", JStr msg_no_valid_input);
                 (u "example", JStr msg_compare_example)], 400),
      sample_price_data).
Proof.
  assert (H : sample_blank_names = []
              \/ (forall n, In n sample_blank_names ->
                            dict_contains sample_price_data (strip n) = false)
              \/ (dict_contains sample_price_data [] = false
                  /\ forall n, In n sample_blank_names ->
                               forallb isspace n = true)).
  { right. right. split; [reflexivity|].
    intros n [<- | [<- | []]]; reflexivity. }
  split; [exact H|].
  apply (compare_no_valid_input sample_exn_str sample_price_data
           sample_blank_names sample_now H).
Defined.

Definition sample_unknown : str := u "unknown".

Lemma get_product_price_not_found_witness :
  dict_contains sample_price_data sample_unknown = false
  /\ exists body,
       get_product_price sample_exn_str sample_unknown sample_now
         sample_price_data = (inr (body, 404), sample_price_data)
       /\ json_field (u "success") body = Some (JBool false)
       /\ json_field (u "available_products") body =
          Some (JList [JStr product_A; JStr product_B; JStr product_C]).
Proof.
  split; [reflexivity|].
  apply (get_product_price_not_found sample_exn_str sample_price_data
           sample_unknown sample_now).
  reflexivity.
Defined.

Lemma lookups_not_found_witness :
  dict_contains sample_price_data sample_unknown = false
  /\ (exists body,
         get_product_price sample_exn_str sample_unknown sample_now
           sample_price_data = (inr (body, 404), sample_price_data)
         /\ lists_available_names sample_price_data body)
  /\ get_price_history sample_exn_str sample_unknown sample_now
       sample_price_data =
     (inr (JObj [(u "success", JBool false);
                 (u "error", JStr (msg_not_found ++ sample_unknown))], 404),
      sample_price_data).
Proof.
  split; [reflexivity|].
  apply (lookups_not_found sample_exn_str sample_price_data sample_unknown
           sample_now).
  reflexivity.
Defined.

(** [C5, as stated] fails on the history lookup: for the name ["unknown"],
    which the loaded catalog does not have, it answers with status 404 and
    a payload none of whose members lists the catalog's names. *)
Lemma history_not_found_omits_names :
  dict_contains sample_price_data sample_unknown = false
  /\ exists body,
       get_price_history sample_exn_str sample_unknown sample_now
         sample_price_data = (inr (body, 404), sample_price_data)
       /\ ~ lists_available_names sample_price_data body.
Proof.
  split; [reflexivity|].
  eexists. split; [reflexivity|].
  intros [k H]. cbn [json_field fst dict_get] in H.
  destruct (str_eqb (u "success") k); [discriminate H|].
  destruct (str_eqb (u "error") k); discriminate H.
Qed.

Lemma get_product_price_history_ordered_witness :
  In product_B (dict_keys sample_price_data)
  /\ exists r : ProductRecord,
       get_product_price sample_exn_str product_B sample_now
         sample_price_data =
       (inr (JObj [(u "success", JBool true);
                   (u "product", JStr product_B);
                   (u "data", record_json r);
                   (u "timestamp", JStr sample_now)], 200),
        sample_price_data)
       /\ history r <> []
       /\ dates_nondecreasing (history r).
Proof.
  assert (H : In product_B (dict_keys sample_price_data))
    by (simpl; right; left; reflexivity).
  split; [exact H|].
  apply (get_product_price_history_ordered sample_exn_str sample_now
           sample_now sample_now product_B sample_now H).
Defined.

Lemma compare_prices_success_witness :
  fst (compare_prices sample_exn_str (Some sample_query) sample_now
         sample_price_data) = inr (sample_comparison, 200)
  /\ exists (comparison : json) (n1 : str) (p1 : Z) (n2 : str) (p2 : Z),
       sample_comparison =
       JObj [(u "success", JBool true);
             (u "comparison", comparison);
             (u "cheapest",
              JObj [(u "product", JStr n1); (u "price", JInt p1)]);
             (u "most_expensive",
              JObj [(u "product", JStr n2); (u "price", JInt p2)]);
             (u "timestamp", JStr sample_now)]
       /\ json_field n1 comparison = Some (JInt p1)
       /\ json_field n2 comparison = Some (JInt p2)
       /\ p1 <= p2.
Proof.
  split; [reflexivity|].
  apply (compare_prices_success sample_exn_str sample_price_data
           (Some sample_query) sample_now sample_comparison).
  reflexivity.
Defined.

(** * Further properties of the handlers *)

(** ** Stripping *)

(** [s] does not begin with a whitespace character. *)
Definition starts_clean (s : str) : bool :=
  match s with
  | [] => true
  | c :: _ => negb (isspace c)
  end.

Lemma lstrip_starts_clean (s : str) : starts_clean (lstrip s) = true.
Proof.
  induction s as [|c s IH]; simpl; [reflexivity|].
  destruct (isspace c) eqn:E; [exact IH|]. simpl. rewrite E. reflexivity.
Qed.

Lemma lstrip_of_clean (s : str) : starts_clean s = true -> lstrip s = s.
Proof.
  destruct s as [|c s]; simpl; [reflexivity|].
  destruct (isspace c); [discriminate | reflexivity].
Qed.

Lemma lstrip_snoc (l : str) (c : N) :
  lstrip (l ++ [c]) =
  match lstrip l with
  | [] => if isspace c then [] else [c]
  | _ :: _ => lstrip l ++ [c]
  end.
Proof.
  induction l as [|a l IH]; simpl; [reflexivity|].
  destruct (isspace a); [exact IH | reflexivity].
Qed.

Lemma rstrip_starts_clean (s : str) :
  starts_clean s = true -> starts_clean (rstrip s) = true.
Proof.
  destruct s as [|c s]; [reflexivity|]. simpl. intros Hc.
  unfold rstrip. simpl rev. rewrite lstrip_snoc.
  destruct (lstrip (rev s)) as [|a r].
  - destruct (isspace c) eqn:E; [discriminate|]. simpl. rewrite E.
    reflexivity.
  - rewrite rev_app_distr. simpl. exact Hc.
Qed.

Lemma rstrip_idempotent (s : str) : rstrip (rstrip s) = rstrip s.
Proof.
  unfold rstrip. rewrite rev_involutive.
  rewrite (lstrip_of_clean (lstrip (rev s))) by apply lstrip_starts_clean.
  reflexivity.
Qed.

Lemma strip_idempotent (s : str) : strip (strip s) = strip s.
Proof.
  unfold strip.
  rewrite (lstrip_of_clean (rstrip (lstrip s)))
    by apply rstrip_starts_clean, lstrip_starts_clean.
  apply rstrip_idempotent.
Qed.

(** ** The resolution loop as a comprehension *)

(** The names of [l], each kept at its first occurrence. *)
Fixpoint uniq (l : list str) : list str :=
  match l with
  | [] => []
  | x :: l' => x :: filter (fun y => negb (str_eqb x y)) (uniq l')
  end.

(** The item a name contributes: its current price if the catalog has it. *)
Definition price_item (pd : catalog) (n : str) : list (str * Z) :=
  match dict_get pd n with
  | Some r => [(n, current_price r)]
  | None => []
  end.

Lemma uniq_snoc (l : list str) (x : str) :
  uniq (l ++ [x]) = if existsb (str_eqb x) l then uniq l else uniq l ++ [x].
Proof.
  induction l as [|a l IH]; simpl; [reflexivity|].
  rewrite IH, (str_eqb_sym x a).
  destruct (existsb (str_eqb x) l); simpl.
  - rewrite orb_true_r. reflexivity.
  - rewrite orb_false_r, filter_app. simpl.
    destruct (str_eqb a x); simpl; [rewrite app_nil_r|]; reflexivity.
Qed.

Lemma In_uniq (l : list str) (x : str) : In x (uniq l) <-> In x l.
Proof.
  induction l as [|a l IH]; simpl; [tauto|].
  rewrite filter_In, IH, negb_true_iff, str_eqb_neq.
  split; [tauto|]. intros [E | H]; [left; exact E|].
  destruct (str_eqb a x) eqn:Eq.
  - left. apply str_eqb_eq. exact Eq.
  - right. split; [exact H | apply str_eqb_neq; exact Eq].
Qed.

Lemma uniq_length (l : list str) : (List.length (uniq l) <= List.length l)%nat.
Proof.
  induction l as [|a l IH]; simpl; [lia|].
  pose proof (filter_length_le (fun y => negb (str_eqb a y)) (uniq l)). lia.
Qed.

Lemma dict_set_same {V} (d : dict V) (k : str) (v : V) :
  dict_get d k = Some v -> dict_set d k v = d.
Proof.
  induction d as [|[k' v'] d IH]; simpl; [discriminate|].
  destruct (str_eqb k' k).
  - intros [= ->]. reflexivity.
  - intros H. rewrite IH by exact H. reflexivity.
Qed.

Lemma dict_set_new {V} (d : dict V) (k : str) (v : V) :
  dict_get d k = None -> dict_set d k v = d ++ [(k, v)].
Proof.
  induction d as [|[k' v'] d IH]; simpl; [reflexivity|].
  destruct (str_eqb k' k); [discriminate|].
  intros H. rewrite IH by exact H. reflexivity.
Qed.

Lemma resolved_comprehension (pd : catalog) (names : list str) :
  fold_left (resolve_step pd) names [] =
  flat_map (price_item pd) (uniq (map strip names)).
Proof.
  induction names as [|x names IH] using rev_ind; [reflexivity|].
  rewrite fold_left_app, map_app. simpl. rewrite uniq_snoc.
  pose proof (resolved_get pd names (strip x)) as G.
  unfold resolve_step at 1.
  destruct (dict_get pd (strip x)) as [r|] eqn:Hx.
  - destruct (existsb (str_eqb (strip x)) (map strip names)); simpl in G.
    + rewrite dict_set_same by exact G. exact IH.
    + rewrite dict_set_new by exact G.
      rewrite flat_map_app, IH. simpl. unfold price_item at 3.
      rewrite Hx. reflexivity.
  - destruct (existsb (str_eqb (strip x)) (map strip names)); [exact IH|].
    rewrite flat_map_app, IH. simpl. unfold price_item at 3.
    rewrite Hx. apply eq_sym, app_nil_r.
Qed.

(** [X1] The resolution loop returns exactly the list of (name, current
    price) items of the stripped names that the catalog has, each name once,
    in the order in which the names first occur in the input. *)
Theorem resolve_many_comprehension (pd : catalog) (names : list str) :
  resolve_many names pd =
  (inr (flat_map (price_item pd) (uniq (map strip names))), pd).
Proof.
  rewrite resolve_many_run, resolved_comprehension. reflexivity.
Qed.

(** [X2] Whitespace around the names of a comparison request does not
    change the answer: the request with every name stripped beforehand is
    answered in the same way. *)
Theorem compare_products_strips
    (exn_str : exn -> str) (pd : catalog) (names : list str) (now : str) :
  compare_products exn_str (map strip names) now pd =
  compare_products exn_str names now pd.
Proof.
  rewrite !compare_products_run, !resolved_comprehension, map_map.
  rewrite (map_ext (fun n => strip (strip n)) strip strip_idempotent).
  reflexivity.
Qed.

Lemma price_item_length (pd : catalog) (l : list str) :
  (List.length (flat_map (price_item pd) l) <= List.length l)%nat.
Proof.
  induction l as [|n l IH]; simpl; [lia|].
  rewrite length_app. unfold price_item at 1.
  destruct (dict_get pd n); simpl; lia.
Qed.

(** [X3] The resolved mapping has at most as many entries as names were
    given, and at most as many as the catalog has keys. *)
Theorem resolve_many_size (pd : catalog) (names : list str) :
  exists result : dict Z,
    resolve_many names pd = (inr result, pd)
    /\ (List.length result <= List.length names)%nat
    /\ (List.length result <= List.length (dict_keys pd))%nat.
Proof.
  exists (fold_left (resolve_step pd) names []).
  split; [apply resolve_many_run|]. split.
  - rewrite resolved_comprehension.
    pose proof (price_item_length pd (uniq (map strip names))).
    pose proof (uniq_length (map strip names)).
    rewrite length_map in *. lia.
  - rewrite <- (length_map fst (fold_left (resolve_step pd) names [])).
    apply NoDup_incl_length; [apply resolved_NoDup; constructor|].
    intros n Hn. apply dict_contains_keys, dict_contains_get in Hn.
    destruct Hn as [p Hp]. rewrite resolved_get in Hp.
    apply dict_contains_keys. unfold dict_contains.
    destruct (existsb _ _); [|discriminate].
    destruct (dict_get pd n); [reflexivity | discriminate].
Qed.

(** [X4] The comparison endpoint never takes its [except] branch: it
    answers with status 200 when some name of the request, once stripped, is
    a key of the catalog, and with status 400 when none is. *)
Theorem compare_prices_status
    (exn_str : exn -> str) (pd : catalog) (arg : option str) (now : str) :
  exists (body : json) (status : Z),
    compare_prices exn_str arg now pd = (inr (body, status), pd)
    /\ ((status = 200
         /\ exists n,
              In n (split 0x2C (match arg with Some s => s | None => [] end))
              /\ dict_contains pd (strip n) = true)
        \/ (status = 400
            /\ forall n,
                 In n (split 0x2C
                         (match arg with Some s => s | None => [] end)) ->
                 dict_contains pd (strip n) = false)).
Proof.
  unfold compare_prices. rewrite compare_products_run.
  set (products := split _ _).
  pose proof (resolved_get pd products) as G.
  destruct (fold_left (resolve_step pd) products []) as [|[k p] l] eqn:E.
  - do 2 eexists. split; [reflexivity|]. right. split; [reflexivity|].
    intros n Hn. specialize (G (strip n)). simpl in G.
    assert (Hex : existsb (str_eqb (strip n)) (map strip products) = true)
      by (apply existsb_str_eqb, in_map; exact Hn).
    rewrite Hex in G. unfold dict_contains.
    destruct (dict_get pd (strip n)); [discriminate G | reflexivity].
  - do 2 eexists. split; [reflexivity|]. left. split; [reflexivity|].
    specialize (G k). simpl in G. rewrite str_eqb_refl in G.
    destruct (existsb (str_eqb k) (map strip products)) eqn:Hex;
      [|discriminate G].
    apply existsb_str_eqb, in_map_iff in Hex. destruct Hex as [n [<- Hn]].
    exists n. split; [exact Hn|]. unfold dict_contains.
    destruct (dict_get pd (strip n)); [reflexivity | discriminate G].
Qed.

(** ** The lookups against each other *)

(** [X5] The price lookup and the history lookup of one name never take
    their [except] branch and always answer with the same status: both 200
    when the name is a key of the catalog, and then the history returned by
    the history lookup is the history member of the record returned by the
    price lookup; both 404 when it is not. *)
Theorem lookups_agree
    (exn_str : exn -> str) (pd : catalog) (product now : str) :
  exists (b1 b2 : json) (status : Z),
    get_product_price exn_str product now pd = (inr (b1, status), pd)
    /\ get_price_history exn_str product now pd = (inr (b2, status), pd)
    /\ ((status = 200
         /\ dict_contains pd product = true
         /\ exists data history,
              json_field (u "data") b1 = Some data
              /\ json_field (u "history") data = Some history
              /\ json_field (u "history") b2 = Some history)
        \/ (status = 404 /\ dict_contains pd product = false)).
Proof.
  destruct (dict_get pd product) as [r|] eqn:E.
  - do 3 eexists.
    split; [apply (get_product_price_found _ _ _ _ r E)|].
    split; [apply (get_price_history_found _ _ _ _ r E)|].
    left. split; [reflexivity|].
    split; [unfold dict_contains; rewrite E; reflexivity|].
    do 2 eexists. repeat split; reflexivity.
  - assert (H : dict_contains pd product = false)
      by (unfold dict_contains; rewrite E; reflexivity).
    do 3 eexists.
    split; [apply get_product_price_absent; exact H|].
    split; [apply get_price_history_absent; exact H|].
    right. split; [reflexivity | exact H].
Qed.

(** [X6] What the whole-catalog read lists under a name is what the price
    lookup of that name returns as its data; a name that the whole-catalog
    read does not list is answered by the price lookup with status 404. *)
Theorem get_all_prices_agrees_with_lookup
    (exn_str : exn -> str) (pd : catalog) (product now now' : str) :
  exists all : json,
    get_all_prices exn_str now pd =
    (inr (JObj [(u "success", JBool true);
                (u "data", all);
                (u "timestamp", JStr now)], 200), pd)
    /\ ((exists data,
            json_field product all = Some data
            /\ get_product_price exn_str product now' pd =
               (inr (JObj [(u "success", JBool true);
                           (u "product", JStr product);
                           (u "data", data);
                           (u "timestamp", JStr now')], 200), pd))
        \/ (json_field product all = None
            /\ exists body,
                 get_product_price exn_str product now' pd =
                 (inr (body, 404), pd))).
Proof.
  exists (catalog_json pd). split; [apply get_all_prices_run|].
  rewrite json_field_catalog.
  destruct (dict_get pd product) as [r|] eqn:E; simpl.
  - left. exists (record_json r). split; [reflexivity|].
    apply get_product_price_found. exact E.
  - right. split; [reflexivity|]. eexists.
    apply get_product_price_absent. unfold dict_contains. rewrite E.
    reflexivity.
Qed.

(** ** The remaining handlers *)

(** ["價格監控 API"] *)
Definition msg_title : str :=
  [0x50F9; 0x683C; 0x76E3; 0x63A7; 0x20; 0x41; 0x50; 0x49]%N.

(** ["取得所有產品價格"] *)
Definition msg_all_prices : str :=
  [0x53D6; 0x5F97; 0x6240; 0x6709; 0x7522; 0x54C1; 0x50F9; 0x683C]%N.

(** ["取得特定產品價格"] *)
Definition msg_one_price : str :=
  [0x53D6; 0x5F97; 0x7279; 0x5B9A; 0x7522; 0x54C1; 0x50F9; 0x683C]%N.

(** ["健康檢查"] *)
Definition msg_health : str := [0x5065; 0x5EB7; 0x6AA2; 0x67E5]%N.

(** ["找不到該端點"] *)
Definition msg_no_endpoint : str :=
  [0x627E; 0x4E0D; 0x5230; 0x8A72; 0x7AEF; 0x9EDE]%N.

(** ["伺服器內部錯誤"] *)
Definition msg_server_error : str :=
  [0x4F3A; 0x670D; 0x5668; 0x5167; 0x90E8; 0x932F; 0x8AA4]%N.

(** [GET /] *)
Definition home : M response :=
  ret (JObj [(u "message", JStr msg_title);
             (u "version", JStr (u "1.0.0"));
             (u "endpoints",
              JObj [(u "/api/prices", JStr msg_all_prices);
                    (u "/api/prices/<product>", JStr msg_one_price);
                    (u "/api/health", JStr msg_health)]);
             (u "example", JStr (u "GET /api/prices/" ++ product_A))], 200).

(** [GET /api/health]; [now] is the clock reading of the call. *)
Definition health_check (now : str) : M response :=
  ret (JObj [(u "status", JStr (u "healthy"));
             (u "timestamp", JStr now)], 200).

(** The handler registered for status 404; it does not look at [error]. *)
Definition not_found {E : Type} (error : E) : M response :=
  ret (JObj [(u "success", JBool false);
             (u "error", JStr msg_no_endpoint);
             (u "available_endpoints",
              JList [JStr (u "/");
                     JStr (u "/api/health");
                     JStr (u "/api/prices");
                     JStr (u "/api/prices/<product>");
                     JStr (u "/api/prices/<product>/history");
                     JStr (u "/api/prices/compare")])], 404).

(** The handler registered for status 500; it does not look at [error]. *)
Definition internal_error {E : Type} (error : E) : M response :=
  ret (JObj [(u "success", JBool false);
             (u "error", JStr msg_server_error)], 500).

(** The computation answers, on every catalog and without changing it, with
    a response that satisfies [P]. *)
Definition answers (c : M response) (P : response -> Prop) : Prop :=
  forall pd, exists r, c pd = (inr r, pd) /\ P r.

(** The [success] member tells the status: [true] goes with 200 and no
    [error] member, [false] with another status and an [error] text. *)
Definition envelope_ok (r : response) : Prop :=
  match json_field (u "success") (fst r) with
  | Some (JBool true) =>
      snd r = 200 /\ json_field (u "error") (fst r) = None
  | Some (JBool false) =>
      snd r <> 200 /\ exists msg, json_field (u "error") (fst r) = Some (JStr msg)
  | _ => False
  end.

Lemma compare_envelope (result : dict Z) (now : str) :
  answers (compare result now) envelope_ok.
Proof.
  intros pd. destruct result as [|x l].
  - eexists. split; [reflexivity|]. split; [discriminate|].
    eexists; reflexivity.
  - eexists. split; [reflexivity|]. split; reflexivity.
Qed.

(** [X7] Every handler of the price endpoints, and both registered error
    handlers, answer on every input without raising and with a consistent
    envelope: [success] is [true] exactly on status 200, and every other
    status comes with [success] false and an [error] text. *)
Theorem handlers_envelope
    (exn_str : exn -> str) (product now : str) (arg : option str)
    (E : Type) (error : E) :
  answers (get_all_prices exn_str now) envelope_ok
  /\ answers (get_product_price exn_str product now) envelope_ok
  /\ answers (get_price_history exn_str product now) envelope_ok
  /\ answers (compare_prices exn_str arg now) envelope_ok
  /\ answers (not_found error) envelope_ok
  /\ answers (internal_error error) envelope_ok.
Proof.
  repeat split; intros pd.
  - eexists. split; [apply get_all_prices_run|]. split; reflexivity.
  - destruct (dict_get pd product) as [r|] eqn:H.
    + eexists. split; [apply (get_product_price_found _ _ _ _ r H)|].
      split; reflexivity.
    + eexists. split.
      * apply get_product_price_absent. unfold dict_contains. rewrite H.
        reflexivity.
      * split; [discriminate | eexists; reflexivity].
  - destruct (dict_get pd product) as [r|] eqn:H.
    + eexists. split; [apply (get_price_history_found _ _ _ _ r H)|].
      split; reflexivity.
    + eexists. split.
      * apply get_price_history_absent. unfold dict_contains. rewrite H.
        reflexivity.
      * split; [discriminate | eexists; reflexivity].
  - unfold compare_prices. rewrite compare_products_run.
    apply compare_envelope.
  - eexists. split; [reflexivity|]. split; [discriminate|].
    eexists; reflexivity.
  - eexists. split; [reflexivity|]. split; [discriminate|].
    eexists; reflexivity.
Qed.

(** ** More on the comparison *)

Lemma first_greatest_ge {A} (key : A -> Z) (l : list A) (x : A) :
  first_greatest key l x -> forall y, In y l -> key y <= key x.
Proof.
  intros [before [after [-> [Hb Ha]]]] y Hy. apply in_app_or in Hy.
  destruct Hy as [Hy | [<- | Hy]];
    [specialize (Hb y Hy) | | specialize (Ha y Hy)]; lia.
Qed.

(** What a 200 answer of the comparison is made of. *)
Lemma compare_prices_ok_inv
    (exn_str : exn -> str) (pd : catalog) (arg : option str) (now : str)
    (body : json) :
  fst (compare_prices exn_str arg now pd) = inr (body, 200) ->
  exists (result : dict Z) (lo hi : str * Z),
    result =
    fold_left (resolve_step pd)
      (split 0x2C (match arg with Some s => s | None => [] end)) []
    /\ NoDup (dict_keys result)
    /\ first_least snd result lo
    /\ first_greatest snd result hi
    /\ body = JObj [(u "success", JBool true);
                    (u "comparison", prices_json result);
                    (u "cheapest",
                     JObj [(u "product", JStr (fst lo));
                           (u "price", JInt (snd lo))]);
                    (u "most_expensive",
                     JObj [(u "product", JStr (fst hi));
                           (u "price", JInt (snd hi))]);
                    (u "timestamp", JStr now)].
Proof.
  unfold compare_prices. rewrite compare_products_run.
  set (products := split _ _).
  assert (ND := resolved_NoDup pd products [] (NoDup_nil _)).
  destruct (fold_left (resolve_step pd) products []) as [|x l] eqn:E;
    [discriminate|].
  intros H. simpl in H. injection H as <-.
  exists (x :: l), (extremum Z.ltb snd x l), (extremum Z.gtb snd x l).
  split; [reflexivity|]. split; [exact ND|].
  split; [apply py_min_first|]. split; [apply py_max_first | reflexivity].
Qed.

Lemma json_field_prices_inv (result : dict Z) (n : str) (p : Z) :
  json_field n (prices_json result) = Some (JInt p) -> In (n, p) result.
Proof.
  rewrite json_field_prices. destruct (dict_get result n) as [q|] eqn:E;
    [|discriminate].
  simpl. intros [= <-]. apply dict_get_In. exact E.
Qed.

(** [X8] In a 200 answer of the comparison, every price of the per-name
    mapping lies between the cheapest and the most expensive price reported,
    and is the current price the catalog holds for that name. *)
Theorem compare_prices_bounds
    (exn_str : exn -> str) (pd : catalog) (arg : option str) (now : str)
    (body : json) :
  fst (compare_prices exn_str arg now pd) = inr (body, 200) ->
  exists (comparison : json) (n1 : str) (p1 : Z) (n2 : str) (p2 : Z),
    body = JObj [(u "success", JBool true);
                 (u "comparison", comparison);
                 (u "cheapest",
                  JObj [(u "product", JStr n1); (u "price", JInt p1)]);
                 (u "most_expensive",
                  JObj [(u "product", JStr n2); (u "price", JInt p2)]);
                 (u "timestamp", JStr now)]
    /\ forall n p,
         json_field n comparison = Some (JInt p) ->
         p1 <= p <= p2
         /\ exists r, dict_get pd n = Some r /\ current_price r = p.
Proof.
  intros H. apply compare_prices_ok_inv in H.
  destruct H as [result [lo [hi [E [ND [Hlo [Hhi ->]]]]]]].
  exists (prices_json result), (fst lo), (snd lo), (fst hi), (snd hi).
  split; [reflexivity|]. intros n p Hp.
  pose proof (json_field_prices_inv _ _ _ Hp) as Hin. split.
  - split.
    + apply (first_least_le _ _ _ Hlo (n, p) Hin).
    + apply (first_greatest_ge _ _ _ Hhi (n, p) Hin).
  - rewrite json_field_prices in Hp. subst result.
    rewrite resolved_get in Hp.
    destruct (existsb _ _); [|discriminate].
    destruct (dict_get pd n) as [r|]; [|discriminate].
    simpl in Hp. injection Hp as <-. exists r. split; reflexivity.
Qed.

(** The built-in extremes of a list of items coincide exactly when all its
    keys are equal. *)
Lemma extremes_coincide {A : Type} (l : list A) (key : A -> Z) :
  py_min l key = py_max l key <->
  forall y z, In y l -> In z l -> key y = key z.
Proof.
  destruct l as [|x l]; simpl; [split; [intros _ y z [] | reflexivity]|].
  pose proof (py_min_first key x l) as Hlo.
  pose proof (py_max_first key x l) as Hhi.
  split.
  - intros [= E] y z Hy Hz.
    pose proof (first_least_le _ _ _ Hlo y Hy).
    pose proof (first_least_le _ _ _ Hlo z Hz).
    rewrite E in *.
    pose proof (first_greatest_ge _ _ _ Hhi y Hy).
    pose proof (first_greatest_ge _ _ _ Hhi z Hz). lia.
  - intros Hall. f_equal.
    assert (Hx : forall better, (forall a, better a a = false) ->
                 extremum better key x l = x).
    { intros better Hb.
      assert (G : forall l', (forall y, In y l' -> key y = key x) ->
                             extremum better key x l' = x).
      { induction l' as [|a l' IH]; simpl; [reflexivity|]. intros Hl.
        rewrite (Hl a (or_introl eq_refl)), Hb. apply IH.
        intros y Hy. apply Hl. right. exact Hy. }
      apply G. intros y Hy. apply Hall; [right; exact Hy | left; reflexivity]. }
    rewrite (Hx Z.ltb Z.ltb_irrefl).
    rewrite (Hx Z.gtb); [reflexivity|].
    intros a. rewrite Z.gtb_ltb. apply Z.ltb_irrefl.
Qed.

Lemma first_least_flat {A} (key : A -> Z) (l : list A) (x : A) :
  first_least key l x -> (forall y, In y l -> key y = key x) ->
  exists after, l = x :: after.
Proof.
  intros [before [after [-> [Hb _]]]] Hall.
  destruct before as [|y before]; [exists after; reflexivity|].
  specialize (Hb y (or_introl eq_refl)).
  specialize (Hall y (or_introl eq_refl)). lia.
Qed.

Lemma first_greatest_flat {A} (key : A -> Z) (l : list A) (x : A) :
  first_greatest key l x -> (forall y, In y l -> key y = key x) ->
  exists after, l = x :: after.
Proof.
  intros [before [after [-> [Hb _]]]] Hall.
  destruct before as [|y before]; [exists after; reflexivity|].
  specialize (Hb y (or_introl eq_refl)).
  specialize (Hall y (or_introl eq_refl)). lia.
Qed.

(** [X9] In a 200 answer of the comparison, the cheapest and the most
    expensive product are the same name exactly when their prices are the
    same, which is exactly when every compared price is that price. *)
Theorem compare_prices_same_extremes
    (exn_str : exn -> str) (pd : catalog) (arg : option str) (now : str)
    (body : json) :
  fst (compare_prices exn_str arg now pd) = inr (body, 200) ->
  exists (comparison : json) (n1 : str) (p1 : Z) (n2 : str) (p2 : Z),
    body = JObj [(u "success", JBool true);
                 (u "comparison", comparison);
                 (u "cheapest",
                  JObj [(u "product", JStr n1); (u "price", JInt p1)]);
                 (u "most_expensive",
                  JObj [(u "product", JStr n2); (u "price", JInt p2)]);
                 (u "timestamp", JStr now)]
    /\ (n1 = n2 <-> p1 = p2)
    /\ (p1 = p2 <->
        forall n p, json_field n comparison = Some (JInt p) -> p = p1).
Proof.
  intros H. apply compare_prices_ok_inv in H.
  destruct H as [result [lo [hi [_ [ND [Hlo [Hhi ->]]]]]]].
  exists (prices_json result), (fst lo), (snd lo), (fst hi), (snd hi).
  split; [reflexivity|].
  assert (Ilo := first_least_In _ _ _ Hlo).
  assert (Ihi := first_greatest_In _ _ _ Hhi).
  assert (Glo : dict_get result (fst lo) = Some (snd lo))
    by (apply dict_get_unique; [exact ND | destruct lo; exact Ilo]).
  assert (Ghi : dict_get result (fst hi) = Some (snd hi))
    by (apply dict_get_unique; [exact ND | destruct hi; exact Ihi]).
  assert (Hflat : snd lo = snd hi ->
                  forall y, In y result -> snd y = snd lo).
  { intros E y Hy.
    pose proof (first_least_le _ _ _ Hlo y Hy).
    pose proof (first_greatest_ge _ _ _ Hhi y Hy). lia. }
  split; [split|split].
  - intros E. rewrite E in Glo. congruence.
  - intros E.
    destruct (first_least_flat _ _ _ Hlo (Hflat E)) as [a1 E1].
    assert (Hflat' : forall y, In y result -> snd y = snd hi)
      by (intros y Hy; rewrite <- E; apply Hflat; assumption).
    destruct (first_greatest_flat _ _ _ Hhi Hflat') as [a2 E2].
    rewrite E1 in E2. injection E2 as -> _. reflexivity.
  - intros E n p Hp. apply json_field_prices_inv in Hp.
    apply (Hflat E (n, p) Hp).
  - intros Hall. apply eq_sym, (Hall (fst hi)).
    rewrite json_field_prices, Ghi. reflexivity.
Qed.

(** The price that a response reports under the member [k]. *)
Definition reported_price (k : str) (r : response) : option json :=
  match json_field k (fst r) with
  | Some o => json_field (u "price") o
  | None => None
  end.

(** The price that a response reports for [n] in its per-name mapping. *)
Definition compared_price (n : str) (r : response) : option json :=
  match json_field (u "comparison") (fst r) with
  | Some c => json_field n c
  | None => None
  end.

Lemma resolved_get_permutation (pd : catalog) (names names' : list str) :
  Permutation names names' ->
  forall n,
    dict_get (fold_left (resolve_step pd) names []) n =
    dict_get (fold_left (resolve_step pd) names' []) n.
Proof.
  intros HP n. rewrite !resolved_get.
  assert (E : existsb (str_eqb n) (map strip names) =
              existsb (str_eqb n) (map strip names')).
  { pose proof (Permutation_map strip HP) as HP'.
    destruct (existsb (str_eqb n) (map strip names)) eqn:E1,
             (existsb (str_eqb n) (map strip names')) eqn:E2;
      try reflexivity.
    - apply existsb_str_eqb in E1.
      apply (Permutation_in _ HP'), existsb_str_eqb in E1. congruence.
    - apply existsb_str_eqb in E2.
      apply (Permutation_in _ (Permutation_sym HP')), existsb_str_eqb in E2.
      congruence. }
  rewrite E. reflexivity.
Qed.

Lemma same_entries_least (d d' : dict Z) (lo lo' : str * Z) :
  NoDup (dict_keys d) ->
  (forall n, dict_get d n = dict_get d' n) ->
  first_least snd d lo -> first_least snd d' lo' -> snd lo' <= snd lo.
Proof.
  intros ND G Hlo Hlo'.
  assert (I := first_least_In _ _ _ Hlo).
  assert (Gl : dict_get d (fst lo) = Some (snd lo))
    by (apply dict_get_unique; [exact ND | destruct lo; exact I]).
  rewrite G in Gl. apply dict_get_In in Gl.
  apply (first_least_le _ _ _ Hlo' _ Gl).
Qed.

Lemma same_entries_greatest (d d' : dict Z) (hi hi' : str * Z) :
  NoDup (dict_keys d) ->
  (forall n, dict_get d n = dict_get d' n) ->
  first_greatest snd d hi -> first_greatest snd d' hi' -> snd hi <= snd hi'.
Proof.
  intros ND G Hhi Hhi'.
  assert (I := first_greatest_In _ _ _ Hhi).
  assert (Gl : dict_get d (fst hi) = Some (snd hi))
    by (apply dict_get_unique; [exact ND | destruct hi; exact I]).
  rewrite G in Gl. apply dict_get_In in Gl.
  apply (first_greatest_ge _ _ _ Hhi' _ Gl).
Qed.

(** [X10] Giving the names of a comparison request in another order changes
    neither the status, nor the price of any name in the per-name mapping,
    nor the cheapest and the most expensive price reported; only which of
    several equally priced products is named can depend on the order. *)
Theorem compare_products_permutation
    (exn_str : exn -> str) (pd : catalog) (names names' : list str)
    (now : str) :
  Permutation names names' ->
  exists r r' : response,
    compare_products exn_str names now pd = (inr r, pd)
    /\ compare_products exn_str names' now pd = (inr r', pd)
    /\ snd r = snd r'
    /\ (forall n, compared_price n r = compared_price n r')
    /\ reported_price (u "cheapest") r = reported_price (u "cheapest") r'
    /\ reported_price (u "most_expensive") r =
       reported_price (u "most_expensive") r'.
Proof.
  intros HP. rewrite !compare_products_run.
  pose proof (resolved_get_permutation pd names names' HP) as G.
  assert (ND := resolved_NoDup pd names [] (NoDup_nil _)).
  assert (ND' := resolved_NoDup pd names' [] (NoDup_nil _)).
  destruct (fold_left (resolve_step pd) names []) as [|x l] eqn:E,
           (fold_left (resolve_step pd) names' []) as [|x' l'] eqn:E'.
  - do 2 eexists. repeat split; reflexivity.
  - exfalso. specialize (G (fst x')). destruct x' as [k v]. simpl in G.
    rewrite str_eqb_refl in G. discriminate G.
  - exfalso. specialize (G (fst x)). destruct x as [k v]. simpl in G.
    rewrite str_eqb_refl in G. discriminate G.
  - rewrite <- E in ND. rewrite <- E' in ND'.
    assert (G' : forall n, dict_get (x' :: l') n = dict_get (x :: l) n)
      by (intros n; apply eq_sym, G).
    pose proof (py_min_first snd x l) as Hlo.
    pose proof (py_min_first snd x' l') as Hlo'.
    pose proof (py_max_first snd x l) as Hhi.
    pose proof (py_max_first snd x' l') as Hhi'.
    rewrite E in ND. rewrite E' in ND'.
    pose proof (same_entries_least _ _ _ _ ND G Hlo Hlo').
    pose proof (same_entries_least _ _ _ _ ND' G' Hlo' Hlo).
    pose proof (same_entries_greatest _ _ _ _ ND G Hhi Hhi').
    pose proof (same_entries_greatest _ _ _ _ ND' G' Hhi' Hhi).
    do 2 eexists. split; [reflexivity|]. split; [reflexivity|].
    split; [reflexivity|]. split; [|split].
    + intros n. unfold compared_price. cbn [fst json_field dict_get].
      change (json_field n (prices_json (x :: l)) =
              json_field n (prices_json (x' :: l'))).
      rewrite !json_field_prices, G. reflexivity.
    + unfold reported_price. cbn. do 2 f_equal. lia.
    + unfold reported_price. cbn. do 2 f_equal. lia.
Qed.

(** ** The query format *)

(** [sep.join(l)], what a client writes to send the names [l]. *)
Fixpoint join (sep : N) (l : list str) : str :=
  match l with
  | [] => []
  | x :: l' =>
      match l' with
      | [] => x
      | _ :: _ => x ++ sep :: join sep l'
      end
  end.

Lemma split_app (sep : N) (x s : str) :
  ~ In sep x -> split sep (x ++ sep :: s) = x :: split sep s.
Proof.
  induction x as [|a x IH]; simpl; intros H.
  - rewrite N.eqb_refl. reflexivity.
  - destruct (N.eqb_spec a sep) as [E | _]; [tauto|].
    rewrite IH by tauto. reflexivity.
Qed.

Lemma split_nosep (sep : N) (x : str) : ~ In sep x -> split sep x = [x].
Proof.
  induction x as [|a x IH]; simpl; intros H; [reflexivity|].
  destruct (N.eqb_spec a sep) as [E | _]; [tauto|].
  rewrite IH by tauto. reflexivity.
Qed.

Lemma split_join (sep : N) (l : list str) :
  l <> [] -> (forall x, In x l -> ~ In sep x) ->
  split sep (join sep l) = l.
Proof.
  induction l as [|x l IH]; [congruence|]. intros _ H.
  destruct l as [|y l].
  - simpl. apply split_nosep, H. left; reflexivity.
  - change (join sep (x :: y :: l)) with (x ++ sep :: join sep (y :: l)).
    rewrite split_app by (apply H; left; reflexivity).
    rewrite IH; [reflexivity | discriminate|].
    intros z Hz. apply H. right. exact Hz.
Qed.

Lemma split_fields_nosep (sep : N) (s : str) :
  forall w, In w (split sep s) -> ~ In sep w.
Proof.
  induction s as [|c s IH]; simpl.
  - intros w [<- | []] [].
  - destruct (N.eqb_spec c sep) as [E | NE].
    + intros w [<- | Hw]; [intros [] | apply IH; exact Hw].
    + destruct (split sep s) as [|w0 ws].
      * intros w [<- | []] [E | []]. congruence.
      * intros w [<- | Hw].
        -- intros [E | Hin]; [congruence|].
           apply (IH w0 (or_introl eq_refl)). exact Hin.
        -- apply IH. right. exact Hw.
Qed.

Lemma In_lstrip (c : N) (s : str) : In c (lstrip s) -> In c s.
Proof.
  induction s as [|a s IH]; simpl; [tauto|].
  destruct (isspace a); [intros H; right; apply IH; exact H | tauto].
Qed.

Lemma In_strip (c : N) (s : str) : In c (strip s) -> In c s.
Proof.
  unfold strip, rstrip. intros H.
  apply In_lstrip. apply in_rev. apply In_lstrip. apply in_rev.
  exact H.
Qed.

Lemma strip_ends_clean (s : str) : starts_clean (rev (strip s)) = true.
Proof.
  unfold strip, rstrip. rewrite rev_involutive. apply lstrip_starts_clean.
Qed.

Lemma strip_starts_clean (s : str) : starts_clean (strip s) = true.
Proof.
  unfold strip. apply rstrip_starts_clean, lstrip_starts_clean.
Qed.

(** [X11] The comparison endpoint decodes what [join] encodes: for a
    non-empty list of names none of which contains a comma, the request
    whose [products] parameter is the comma-joined list is answered as the
    comparison of exactly those names. *)
Theorem compare_prices_joined
    (exn_str : exn -> str) (pd : catalog) (names : list str) (now : str) :
  names <> [] ->
  (forall n, In n names -> ~ In 0x2C%N n) ->
  compare_prices exn_str (Some (join 0x2C names)) now pd =
  compare_products exn_str names now pd.
Proof.
  intros Hne Hsep. unfold compare_prices.
  rewrite split_join by assumption. reflexivity.
Qed.

(** [X12] In a 200 answer of the comparison endpoint, no name of the
    per-name mapping contains a comma, begins with whitespace or ends with
    whitespace: a catalog product with such a name is never compared,
    whatever the request. *)
Theorem compare_prices_names_clean
    (exn_str : exn -> str) (pd : catalog) (arg : option str) (now : str)
    (body : json) :
  fst (compare_prices exn_str arg now pd) = inr (body, 200) ->
  exists (comparison cheapest expensive : json),
    body = JObj [(u "success", JBool true);
                 (u "comparison", comparison);
                 (u "cheapest", cheapest);
                 (u "most_expensive", expensive);
                 (u "timestamp", JStr now)]
    /\ forall n v,
         json_field n comparison = Some v ->
         ~ In 0x2C%N n
         /\ starts_clean n = true
         /\ starts_clean (rev n) = true.
Proof.
  intros H. apply compare_prices_ok_inv in H.
  destruct H as [result [lo [hi [E [_ [_ [_ ->]]]]]]].
  do 3 eexists. split; [reflexivity|]. intros n v Hv.
  rewrite json_field_prices in Hv. subst result.
  rewrite resolved_get in Hv.
  destruct (existsb _ _) eqn:Hex; [|discriminate].
  apply existsb_str_eqb, in_map_iff in Hex. destruct Hex as [w [<- Hw]].
  split; [|split].
  - intros Hc. apply In_strip in Hc.
    apply (split_fields_nosep _ _ w Hw Hc).
  - apply strip_starts_clean.
  - apply strip_ends_clean.
Qed.

(** ** One name *)

(** [X13] A request that names a single product (no comma) which, once
    stripped, is a key of the catalog is answered with status 200, a
    per-name mapping of that one stripped name to its current price, and
    that same entry as both the cheapest and the most expensive. *)
Theorem compare_prices_single
    (exn_str : exn -> str) (pd : catalog) (s now : str) (r : ProductRecord) :
  ~ In 0x2C%N s ->
  dict_get pd (strip s) = Some r ->
  compare_prices exn_str (Some s) now pd =
  (inr (JObj [(u "success", JBool true);
              (u "comparison", JObj [(strip s, JInt (current_price r))]);
              (u "cheapest",
               JObj [(u "product", JStr (strip s));
                     (u "price", JInt (current_price r))]);
              (u "most_expensive",
               JObj [(u "product", JStr (strip s));
                     (u "price", JInt (current_price r))]);
              (u "timestamp", JStr now)], 200), pd).
Proof.
  intros Hs Hr. unfold compare_prices.
  rewrite split_nosep by exact Hs.
  rewrite compare_products_run. simpl fold_left. unfold resolve_step.
  rewrite Hr. reflexivity.
Qed.

(** [X14] The price lookup does not strip its argument while the comparison
    does: for a comma-free name that is not a key of the catalog but whose
    stripped form is, the price lookup answers 404 and the comparison of
    that same name answers 200. *)
Theorem lookup_does_not_strip
    (exn_str : exn -> str) (pd : catalog) (s now : str) :
  ~ In 0x2C%N s ->
  dict_contains pd s = false ->
  dict_contains pd (strip s) = true ->
  exists b1 b2 : json,
    get_product_price exn_str s now pd = (inr (b1, 404), pd)
    /\ compare_prices exn_str (Some s) now pd = (inr (b2, 200), pd)
    /\ exists p, json_field (u "comparison") b2 = Some (JObj [(strip s, JInt p)]).
Proof.
  intros Hs Habs Hin. apply dict_contains_get in Hin. destruct Hin as [r Hr].
  do 2 eexists. split; [apply get_product_price_absent; exact Habs|].
  unfold compare_prices. rewrite split_nosep by exact Hs.
  rewrite compare_products_run. simpl fold_left. unfold resolve_step.
  rewrite Hr. split; [reflexivity|].
  exists (current_price r). reflexivity.
Qed.

(** [X15] Every alternative that the price lookup offers with a 404 is a
    product it can serve: the offered list is a list of names, and looking
    any of them up answers with status 200. *)
Theorem offered_alternatives_resolve
    (exn_str : exn -> str) (pd : catalog) (product now now' : str) :
  dict_contains pd product = false ->
  exists (body : json) (names : list str),
    get_product_price exn_str product now pd = (inr (body, 404), pd)
    /\ json_field (u "available_products") body = Some (JList (map JStr names))
    /\ forall n, In n names ->
         exists b, get_product_price exn_str n now' pd = (inr (b, 200), pd).
Proof.
  intros H. exists
    (JObj [(u "success", JBool false);
           (u "error", JStr (msg_not_found ++ product));
           (u "available_products", JList (map JStr (dict_keys pd)))]),
    (dict_keys pd).
  split; [apply get_product_price_absent; exact H|].
  split; [reflexivity|].
  intros n Hn. apply dict_contains_keys, dict_contains_get in Hn.
  destruct Hn as [r Hr]. eexists.
  apply (get_product_price_found _ _ _ _ r Hr).
Qed.

(** * Further concrete runs *)

Example join_example : join 0x2C [u "a"; u "b"; u "c"] = u "a,b,c".
Proof. reflexivity. Qed.

Example uniq_example :
  uniq [u "b"; u "a"; u "b"; u "c"; u "a"] = [u "b"; u "a"; u "c"].
Proof. reflexivity. Qed.

(** The product of the example given by [home] is served. *)
Example home_example_resolves :
  (exists body,
      home sample_price_data = (inr (body, 200), sample_price_data)
      /\ json_field (u "example") body =
         Some (JStr (u "GET /api/prices/" ++ product_A)))
  /\ exists b,
       get_product_price sample_exn_str product_A sample_now
         sample_price_data = (inr (b, 200), sample_price_data).
Proof.
  split; [eexists; split; reflexivity | eexists; reflexivity].
Qed.

(** The request given as example with a 400 answer is itself answered with
    status 200. *)
Example usage_hint_succeeds :
  msg_compare_example =
  u "/api/prices/compare?products=" ++ join 0x2C [product_A; product_B]
  /\ exists b,
       compare_prices sample_exn_str
         (Some (join 0x2C [product_A; product_B])) sample_now
         sample_price_data = (inr (b, 200), sample_price_data).
Proof. split; [reflexivity | eexists; reflexivity]. Qed.

(** * Instances of the further theorems that carry a hypothesis *)

Lemma compare_prices_bounds_witness :
  fst (compare_prices sample_exn_str (Some sample_query) sample_now
         sample_price_data) = inr (sample_comparison, 200)
  /\ exists (comparison : json) (n1 : str) (p1 : Z) (n2 : str) (p2 : Z),
       sample_comparison =
       JObj [(u "success", JBool true);
             (u "comparison", comparison);
             (u "cheapest",
              JObj [(u "product", JStr n1); (u "price", JInt p1)]);
             (u "most_expensive",
              JObj [(u "product", JStr n2); (u "price", JInt p2)]);
             (u "timestamp", JStr sample_now)]
       /\ forall n p,
            json_field n comparison = Some (JInt p) ->
            p1 <= p <= p2
            /\ exists r, dict_get sample_price_data n = Some r
                         /\ current_price r = p.
Proof.
  split; [reflexivity|].
  apply (compare_prices_bounds sample_exn_str sample_price_data
           (Some sample_query) sample_now sample_comparison).
  reflexivity.
Defined.

Lemma compare_prices_same_extremes_witness :
  fst (compare_prices sample_exn_str (Some sample_query) sample_now
         sample_price_data) = inr (sample_comparison, 200)
  /\ exists (comparison : json) (n1 : str) (p1 : Z) (n2 : str) (p2 : Z),
       sample_comparison =
       JObj [(u "success", JBool true);
             (u "comparison", comparison);
             (u "cheapest",
              JObj [(u "product", JStr n1); (u "price", JInt p1)]);
             (u "most_expensive",
              JObj [(u "product", JStr n2); (u "price", JInt p2)]);
             (u "timestamp", JStr sample_now)]
       /\ (n1 = n2 <-> p1 = p2)
       /\ (p1 = p2 <->
           forall n p, json_field n comparison = Some (JInt p) -> p = p1).
Proof.
  split; [reflexivity|].
  apply (compare_prices_same_extremes sample_exn_str sample_price_data
           (Some sample_query) sample_now sample_comparison).
  reflexivity.
Defined.

Lemma compare_products_permutation_witness :
  Permutation [product_B; product_A] [product_A; product_B]
  /\ exists r r' : response,
       compare_products sample_exn_str [product_B; product_A] sample_now
         sample_price_data = (inr r, sample_price_data)
       /\ compare_products sample_exn_str [product_A; product_B] sample_now
            sample_price_data = (inr r', sample_price_data)
       /\ snd r = snd r'
       /\ (forall n, compared_price n r = compared_price n r')
       /\ reported_price (u "cheapest") r = reported_price (u "cheapest") r'
       /\ reported_price (u "most_expensive") r =
          reported_price (u "most_expensive") r'.
Proof.
  split; [apply perm_swap|].
  apply (compare_products_permutation sample_exn_str sample_price_data
           [product_B; product_A] [product_A; product_B] sample_now).
  apply perm_swap.
Defined.

Lemma compare_prices_joined_witness :
  [product_A; product_B] <> []
  /\ (forall n, In n [product_A; product_B] -> ~ In 0x2C%N n)
  /\ compare_prices sample_exn_str
       (Some (join 0x2C [product_A; product_B])) sample_now
       sample_price_data =
     compare_products sample_exn_str [product_A; product_B] sample_now
       sample_price_data.
Proof.
  assert (H : forall n, In n [product_A; product_B] -> ~ In 0x2C%N n).
  { intros n [<- | [<- | []]] H; simpl in H;
      repeat (destruct H as [H | H]; [discriminate H|]); exact H. }
  split; [discriminate|]. split; [exact H|].
  apply (compare_prices_joined sample_exn_str sample_price_data
           [product_A; product_B] sample_now); [discriminate | exact H].
Defined.

Lemma compare_prices_names_clean_witness :
  fst (compare_prices sample_exn_str (Some sample_query) sample_now
         sample_price_data) = inr (sample_comparison, 200)
  /\ exists (comparison cheapest expensive : json),
       sample_comparison =
       JObj [(u "success", JBool true);
             (u "comparison", comparison);
             (u "cheapest", cheapest);
             (u "most_expensive", expensive);
             (u "timestamp", JStr sample_now)]
       /\ forall n v,
            json_field n comparison = Some v ->
            ~ In 0x2C%N n
            /\ starts_clean n = true
            /\ starts_clean (rev n) = true.
Proof.
  split; [reflexivity|].
  apply (compare_prices_names_clean sample_exn_str sample_price_data
           (Some sample_query) sample_now sample_comparison).
  reflexivity.
Defined.

Definition sample_padded : str := u " " ++ product_A ++ u " ".

Definition sample_record_A : ProductRecord :=
  {| current_price := 1200;
     last_update := sample_now;
     history := [ mkHistoryEntry (u "2024-01-01") 1000;
                  mkHistoryEntry (u "2024-01-15") 1100;
                  mkHistoryEntry (u "2024-02-01") 1200 ] |}.

Lemma compare_prices_single_witness :
  ~ In 0x2C%N sample_padded
  /\ dict_get sample_price_data (strip sample_padded) = Some sample_record_A
  /\ compare_prices sample_exn_str (Some sample_padded) sample_now
       sample_price_data =
     (inr (JObj [(u "success", JBool true);
                 (u "comparison", JObj [(product_A, JInt 1200)]);
                 (u "cheapest",
                  JObj [(u "product", JStr product_A);
                        (u "price", JInt 1200)]);
                 (u "most_expensive",
                  JObj [(u "product", JStr product_A);
                        (u "price", JInt 1200)]);
                 (u "timestamp", JStr sample_now)], 200), sample_price_data).
Proof.
  assert (H : ~ In 0x2C%N sample_padded).
  { intros H. simpl in H.
    repeat (destruct H as [H | H]; [discriminate H|]). exact H. }
  split; [exact H|]. split; [reflexivity|].
  apply (compare_prices_single sample_exn_str sample_price_data
           sample_padded sample_now sample_record_A H).
  reflexivity.
Defined.

Lemma lookup_does_not_strip_witness :
  ~ In 0x2C%N sample_padded
  /\ dict_contains sample_price_data sample_padded = false
  /\ dict_contains sample_price_data (strip sample_padded) = true
  /\ exists b1 b2 : json,
       get_product_price sample_exn_str sample_padded sample_now
         sample_price_data = (inr (b1, 404), sample_price_data)
       /\ compare_prices sample_exn_str (Some sample_padded) sample_now
            sample_price_data = (inr (b2, 200), sample_price_data)
       /\ exists p,
            json_field (u "comparison") b2 =
            Some (JObj [(strip sample_padded, JInt p)]).
Proof.
  assert (H : ~ In 0x2C%N sample_padded).
  { intros H. simpl in H.
    repeat (destruct H as [H | H]; [discriminate H|]). exact H. }
  split; [exact H|].
  split; [reflexivity|]. split; [reflexivity|].
  apply (lookup_does_not_strip sample_exn_str sample_price_data
           sample_padded sample_now H); reflexivity.
Defined.

Lemma offered_alternatives_resolve_witness :
  dict_contains sample_price_data sample_unknown = false
  /\ exists (body : json) (names : list str),
       get_product_price sample_exn_str sample_unknown sample_now
         sample_price_data = (inr (body, 404), sample_price_data)
       /\ json_field (u "available_products") body =
          Some (JList (map JStr names))
       /\ forall n, In n names ->
            exists b,
              get_product_price sample_exn_str n sample_now
                sample_price_data = (inr (b, 200), sample_price_data).
Proof.
  split; [reflexivity|].
  apply (offered_alternatives_resolve sample_exn_str sample_price_data
           sample_unknown sample_now sample_now).
  reflexivity.
Defined.
